(** * FelixActivityBot: shallow embedding of the ActivityTracker data layer

    The SQLite database of [ActivityTracker] is modelled as two tables kept
    as lists of rows in table order: [groups] (primary key [chat_id]) and
    [activity] (append-only).  Every method opens its own connection and
    commits, so each method is a function from the database to a result and
    a new database.  Instants ([datetime.now()], [trial_end_date], ...) are
    modelled as integers: microseconds since 0001-01-01 00:00, the start of
    the range of Python's [datetime]; calendar days ([date] column,
    [strftime('%Y-%m-%d')]) as the text the code stores, compared as SQLite
    compares TEXT (bytewise). Storage faults, which every method catches and
    turns into a default result, are not modelled; the [OverflowError] of a
    date computation that leaves the range of [datetime], which the same
    handlers catch, is.  A Python [str] is given by its UTF-8 encoding. *)

From Stdlib Require Import ZArith QArith Bool List String Ascii Lia Sorting.Sorted Sorting.Permutation.
Import ListNotations.
Open Scope Z_scope.
Open Scope string_scope.

(** ** Rows *)

Record group_row := mk_group {
  g_chat_id : Z;
  g_group_name : option string;
  g_status : string;
  g_trial_end_date : option Z;
  g_subscription_end_date : option Z;
  g_added_date : Z
}.

Record activity_row := mk_activity {
  a_chat_id : Z;
  a_user_id : Z;
  a_username : option string;
  a_first_name : option string;
  a_timestamp : Z;
  a_message_type : string;
  a_date : string;
  a_hour : Z
}.

Record db := mk_db {
  groups : list group_row;
  activity : list activity_row
}.

(** SQL helpers: [WHERE chat_id = ?] over the groups table. *)

Definition select_group (chat_id : Z) (gs : list group_row) : option group_row :=
  find (fun g => Z.eqb (g_chat_id g) chat_id) gs.

Definition count_groups (chat_id : Z) (gs : list group_row) : nat :=
  List.length (filter (fun g => Z.eqb (g_chat_id g) chat_id) gs).

(** [UPDATE groups SET ... WHERE chat_id = ?]: rewrites every matching row. *)
Definition update_groups (chat_id : Z) (f : group_row -> group_row)
    (gs : list group_row) : list group_row :=
  map (fun g => if Z.eqb (g_chat_id g) chat_id then f g else g) gs.

(** ** Group registry *)

(** [register_group]: [SELECT chat_id FROM groups WHERE chat_id = ?]; if a
    row is found return [False], else insert a pending row and return [True]. *)
Definition register_group (now : Z) (chat_id : Z) (group_name : option string)
    (d : db) : bool * db :=
  match select_group chat_id (groups d) with
  | Some _ => (false, d)
  | None =>
      (true, mk_db (groups d ++ [mk_group chat_id group_name "pending" None None now])
                   (activity d))
  end.

Definition microseconds_per_hour : Z := 3600 * 1000000.
Definition microseconds_per_day : Z := 24 * microseconds_per_hour.

(** The range of [datetime]: [datetime.min] (0001-01-01 00:00) to
    [datetime.max] (9999-12-31 23:59:59.999999); [datetime.now()] always lies
    in it. *)
Definition datetime_min : Z := 0.
Definition datetime_max : Z := 3652059 * microseconds_per_day - 1.

(** A [timedelta] normalises to whole days (rounded down) and a remainder;
    more than 999999999 days either way raises [OverflowError]. *)
Definition timedelta_max_days : Z := 999999999.

Definition timedelta_ok (us : Z) : bool :=
  let days := Z.div us microseconds_per_day in
  Z.leb (- timedelta_max_days) days && Z.leb days timedelta_max_days.

(** [now + timedelta(microseconds=us)] for a clock reading [now]; [None] is
    the [OverflowError] raised when the timedelta or the sum leaves its
    range.  As [now] lies in the range, the sum can only leave it past its
    end for a positive duration, and before its start for a negative one. *)
Definition add_timedelta (now us : Z) : option Z :=
  if timedelta_ok us
     && (Z.leb us 0 || Z.leb (now + us) datetime_max)
     && (Z.leb 0 us || Z.leb datetime_min (now + us))
  then Some (now + us) else None.

(** [approve_group_trial]: [trial_end = now + timedelta(hours=hours)];
    [UPDATE groups SET status = 'trial', trial_end_date = ? WHERE chat_id = ?];
    returns [True].  An [OverflowError] of the deadline is caught: [False],
    nothing written. *)
Definition approve_group_trial (now : Z) (chat_id hours : Z) (d : db) : bool * db :=
  match add_timedelta now (hours * microseconds_per_hour) with
  | None => (false, d)
  | Some trial_end =>
      (true, mk_db (update_groups chat_id
                      (fun g => mk_group (g_chat_id g) (g_group_name g) "trial"
                                  (Some trial_end) (g_subscription_end_date g)
                                  (g_added_date g))
                      (groups d))
                   (activity d))
  end.

(** [extend_subscription]: [sub_end = now + timedelta(days=days)], with the
    same caught [OverflowError]. *)
Definition extend_subscription (now : Z) (chat_id days : Z) (d : db) : bool * db :=
  match add_timedelta now (days * microseconds_per_day) with
  | None => (false, d)
  | Some sub_end =>
      (true, mk_db (update_groups chat_id
                      (fun g => mk_group (g_chat_id g) (g_group_name g) "active"
                                  (g_trial_end_date g) (Some sub_end)
                                  (g_added_date g))
                      (groups d))
                   (activity d))
  end.

(** [update_group_status]: [UPDATE groups SET status = ? WHERE chat_id = ?]. *)
Definition update_group_status (chat_id : Z) (status : string) (d : db) : bool * db :=
  (true, mk_db (update_groups chat_id
                  (fun g => mk_group (g_chat_id g) (g_group_name g) status
                              (g_trial_end_date g) (g_subscription_end_date g)
                              (g_added_date g))
                  (groups d))
               (activity d)).

(** ** Access evaluator *)

(** [get_group_status]: reads [status, trial_end_date, subscription_end_date];
    no row gives [None]; a trial (resp. active) row whose end date is set and
    strictly before [now] is updated to ['expired'], which is returned. *)
Definition get_group_status (now : Z) (chat_id : Z) (d : db) : option string * db :=
  match select_group chat_id (groups d) with
  | None => (None, d)
  | Some g =>
      let status := g_status g in
      let after_trial :=
        if String.eqb status "trial" then
          match g_trial_end_date g with
          | Some trial_end =>
              if Z.ltb trial_end now
              then Some (Some "expired", snd (update_group_status chat_id "expired" d))
              else None
          | None => None
          end
        else None in
      match after_trial with
      | Some r => r
      | None =>
          if String.eqb status "active" then
            match g_subscription_end_date g with
            | Some sub_end =>
                if Z.ltb sub_end now
                then (Some "expired", snd (update_group_status chat_id "expired" d))
                else (Some status, d)
            | None => (Some status, d)
            end
          else (Some status, d)
      end
  end.

(** The gate of [track_message] and of the statistics commands:
    [status not in ['trial', 'active']] blocks. *)
Definition status_permits (status : option string) : bool :=
  match status with
  | Some s => String.eqb s "trial" || String.eqb s "active"
  | None => false
  end.

(** ** Inbound updates *)

Record chat := mk_chat {
  c_id : Z;
  c_type : string;
  c_title : option string
}.

Record user := mk_user {
  u_id : Z;
  u_username : option string;
  u_first_name : option string
}.

(** The message capabilities tested by [track_message]; [m_text] is [EmptyString]
    when the message has no text (Python's falsy [message.text]). *)
Record message := mk_message {
  m_text : string;
  m_photo : bool;
  m_video : bool;
  m_sticker : bool;
  m_document : bool;
  m_voice : bool
}.

Record update := mk_update {
  up_message : option message;
  up_chat : option chat;
  up_user : user
}.

Definition message_type (m : message) : string :=
  if negb (String.eqb (m_text m) EmptyString) then "text"
  else if m_photo m then "photo"
  else if m_video m then "video"
  else if m_sticker m then "sticker"
  else if m_document m then "document"
  else if m_voice m then "voice"
  else "other".

Definition is_group_chat (c : chat) : bool :=
  String.eqb (c_type c) "group" || String.eqb (c_type c) "supergroup".

(** SQLite compares TEXT bytewise. *)
Fixpoint text_le (a b : string) : bool :=
  match a, b with
  | EmptyString, _ => true
  | String _ _, EmptyString => false
  | String x a', String y b' =>
      if Nat.ltb (nat_of_ascii x) (nat_of_ascii y) then true
      else if Nat.eqb (nat_of_ascii x) (nat_of_ascii y) then text_le a' b'
      else false
  end.

Definition text_min (a b : string) : string := if text_le a b then a else b.
Definition text_max (a b : string) : string := if text_le a b then b else a.

(** [COALESCE] over nullable text. *)
Definition coalesce (o : option string) (dflt : string) : string :=
  match o with Some s => s | None => dflt end.

Section Clock.

(** The local calendar day ([strftime('%Y-%m-%d')]) and hour ([.hour]) of
    an instant, as [datetime] computes them in the process's time zone. *)
Variable day_of : Z -> string.
Variable hour_of : Z -> Z.

(** [log_activity]: one INSERT into [activity]. *)
Definition log_activity (now : Z) (chat_id user_id : Z)
    (username first_name : option string) (message_type : string) (d : db) : db :=
  mk_db (groups d)
        (activity d ++ [mk_activity chat_id user_id username first_name now
                          message_type (day_of now) (hour_of now)]).

(** [track_message]; the notification to the super admin on a new group is
    an outbound effect and leaves the database alone. *)
Definition track_message (now : Z) (upd : update) (d : db) : db :=
  match up_message upd, up_chat upd with
  | Some msg, Some c =>
      if negb (is_group_chat c) then d
      else
        let '(_is_new, d1) := register_group now (c_id c) (c_title c) d in
        let '(status, d2) := get_group_status now (c_id c) d1 in
        if negb (status_permits status) then d2
        else
          let u := up_user upd in
          log_activity now (c_id c) (u_id u) (u_username u) (u_first_name u)
                       (message_type msg) d2
  | _, _ => d
  end.

(** [cutoff_date = (now - timedelta(days=days)).strftime('%Y-%m-%d')], when
    the instant [now - timedelta(days=days)] exists (see [cutoff_instant]). *)
Definition cutoff_date (now days : Z) : string :=
  day_of (now - days * microseconds_per_day).

End Clock.

(** ** Statistics engine *)

(** [now - timedelta(days=days)]; [None] is its [OverflowError], which the
    queries with a caller-given window catch ([except]: [[]] or [None]). *)
Definition cutoff_instant (now days : Z) : option Z :=
  add_timedelta now (- (days * microseconds_per_day)).

(** [WHERE chat_id = ? AND date >= ?] *)
Definition in_window (chat_id : Z) (cutoff : string) (r : activity_row) : bool :=
  Z.eqb (a_chat_id r) chat_id && text_le cutoff (a_date r).

(** A [GROUP BY user_id] bucket of [get_top_contributors]: user id, display
    name ([COALESCE(username, first_name, 'Unknown')], taken from the first
    row of the bucket; SQLite takes it from an arbitrary row) and
    [COUNT] of the rows.  Buckets are kept in order of first appearance. *)
Fixpoint bump_contributor (r : activity_row) (acc : list (Z * string * Z))
    : list (Z * string * Z) :=
  match acc with
  | [] => [(a_user_id r,
            coalesce (a_username r) (coalesce (a_first_name r) "Unknown"), 1)]
  | (u, n, c) :: rest =>
      if Z.eqb u (a_user_id r) then (u, n, c + 1) :: rest
      else (u, n, c) :: bump_contributor r rest
  end.

Definition group_by_user (rows : list activity_row) : list (Z * string * Z) :=
  fold_left (fun acc r => bump_contributor r acc) rows [].

(** [ORDER BY message_count DESC]: a stable insertion sort on the count; the
    order of ties is not specified by SQLite. *)
Fixpoint insert_desc {A} (key : A -> Z) (x : A) (l : list A) : list A :=
  match l with
  | [] => [x]
  | y :: l' => if Z.leb (key y) (key x) then x :: y :: l' else y :: insert_desc key x l'
  end.

Fixpoint sort_desc {A} (key : A -> Z) (l : list A) : list A :=
  match l with
  | [] => []
  | x :: l' => insert_desc key x (sort_desc key l')
  end.

(** SQLite's [LIMIT n]: a negative [n] means no limit. *)
Definition sql_limit {A} (n : Z) (l : list A) : list A :=
  if Z.ltb n 0 then l else firstn (Z.to_nat n) l.

Definition contributor_count (x : Z * string * Z) : Z :=
  let '(_, _, c) := x in c.

Definition get_top_contributors_at (cutoff : string) (chat_id limit : Z) (d : db)
    : list (Z * string * Z) :=
  sql_limit limit
    (sort_desc contributor_count
       (group_by_user (filter (in_window chat_id cutoff) (activity d)))).

Definition get_top_contributors (day_of : Z -> string) (now : Z)
    (chat_id days limit : Z) (d : db) : list (Z * string * Z) :=
  match cutoff_instant now days with
  | None => []
  | Some _ => get_top_contributors_at (cutoff_date day_of now days) chat_id limit d
  end.

(** Number of recorded events of [user_id] in [chat_id] on or after [cutoff]. *)
Definition user_events_in_window (cutoff : string) (chat_id user_id : Z) (d : db) : Z :=
  Z.of_nat (List.length (filter (fun r => in_window chat_id cutoff r && Z.eqb (a_user_id r) user_id)
                           (activity d))).

(** [COUNT(DISTINCT user_id)] *)
Fixpoint distinct_users_acc (rows : list activity_row) (seen : list Z) : list Z :=
  match rows with
  | [] => seen
  | r :: rest =>
      if existsb (Z.eqb (a_user_id r)) seen then distinct_users_acc rest seen
      else distinct_users_acc rest (seen ++ [a_user_id r])
  end.

Definition count_distinct_users (rows : list activity_row) : Z :=
  Z.of_nat (List.length (distinct_users_acc rows [])).

Definition count_rows (p : activity_row -> bool) (rows : list activity_row) : Z :=
  Z.of_nat (List.length (filter p rows)).

(** Python numbers returned in the stats dictionary. *)
Inductive py_number :=
| PyInt (z : Z)
| PyFloat (q : Q).

(** Division rounded to the nearest integer, ties to even ([d > 0]). *)
Definition round_half_even_div (n d : Z) : Z :=
  let q := Z.div n d in
  let r := n - q * d in
  if Z.ltb (2 * r) d then q
  else if Z.ltb d (2 * r) then q + 1
  else if Z.even q then q else q + 1.

(** [n * 2 ^ e] as a rational, for any sign of [e]. *)
Definition scale2 (n e : Z) : Q :=
  if Z.leb 0 e then inject_Z (n * 2 ^ e) else Qmake n (Z.to_pos (2 ^ (- e))).

(** [a / b] on non-negative ints is the double nearest the quotient, ties to
    even (a 53-bit significand; the quotient of two counts stays in the
    normal range); [ZeroDivisionError] when [b = 0].  The float is given by
    its exact value. *)
Definition py_true_div (a b : Z) : option Q :=
  if Z.eqb b 0 then None
  else if Z.eqb a 0 then Some 0%Q
  else
    let k := Z.log2 a - Z.log2 b in
    (* [L] is the exponent of the quotient: [2 ^ L <= a / b < 2 ^ (L + 1)]. *)
    let L := if Z.leb (b * 2 ^ Z.max 0 k) (a * 2 ^ Z.max 0 (- k)) then k else k - 1 in
    let e := L - 52 in
    let m := round_half_even_div (a * 2 ^ Z.max 0 (- e)) (b * 2 ^ Z.max 0 e) in
    Some (scale2 m e).

(** [round(x, 1)] on a float: CPython rounds the exact binary value of [x]
    to one decimal, ties to even; the result, the double nearest [k / 10],
    is given by [k / 10]. *)
Definition round1 (x : Q) : Q :=
  let t := Qmult (10 # 1) x in
  let k := round_half_even_div (Qnum t) (Zpos (Qden t)) in
  k # 10.

Record overall_stats := mk_stats {
  total_messages : Z;
  unique_users : Z;
  messages_today : Z;
  active_today : Z;
  messages_week : Z;
  avg_per_user : py_number
}.

(** [get_overall_stats]; [None] is the [except] branch (a fault, such as a
    division by zero, caught and logged).  Its window is fixed at 7 days:
    [now - timedelta(days=7)] would only overflow for a clock reading in the
    first week of the year 1, which is not considered here. *)
Definition get_overall_stats (day_of : Z -> string) (now : Z) (chat_id : Z) (d : db)
    : option overall_stats :=
  let rows := activity d in
  let of_chat := fun r => Z.eqb (a_chat_id r) chat_id in
  let total := count_rows of_chat rows in
  let unique := count_distinct_users (filter of_chat rows) in
  let today := day_of now in
  let on_today := fun r => of_chat r && String.eqb (a_date r) today in
  let m_today := count_rows on_today rows in
  let a_today := count_distinct_users (filter on_today rows) in
  let week_ago := cutoff_date day_of now 7 in
  let m_week := count_rows (in_window chat_id week_ago) rows in
  let avg :=
    if Z.ltb 0 unique then
      match py_true_div total unique with
      | Some q => Some (PyFloat (round1 q))
      | None => None
      end
    else Some (PyInt 0) in
  match avg with
  | Some a => Some (mk_stats total unique m_today a_today m_week a)
  | None => None
  end.

(** ** CSV export *)

Definition char_of_code (n : nat) : string := String (ascii_of_nat n) EmptyString.
Definition CR : string := char_of_code 13.
Definition LF : string := char_of_code 10.
Definition DQUOTE : string := char_of_code 34.
Definition COMMA : string := ",".

(** [str(n)] for an int. *)
Fixpoint digits_acc (fuel : nat) (n : Z) (acc : string) : string :=
  match fuel with
  | O => acc
  | S f =>
      let acc' := String (ascii_of_nat (48 + Z.to_nat (Z.modulo n 10))) acc in
      if Z.eqb (Z.div n 10) 0 then acc' else digits_acc f (Z.div n 10) acc'
  end.

Definition z_to_str (n : Z) : string :=
  let fuel := S (Z.to_nat (Z.log2 (Z.abs n))) in
  if Z.ltb n 0 then "-" ++ digits_acc fuel (- n) EmptyString
  else digits_acc fuel n EmptyString.

Fixpoint contains_char (c : ascii) (s : string) : bool :=
  match s with
  | EmptyString => false
  | String x s' => Ascii.eqb x c || contains_char c s'
  end.

Fixpoint double_quotes (s : string) : string :=
  match s with
  | EmptyString => EmptyString
  | String x s' =>
      if Ascii.eqb x (ascii_of_nat 34) then DQUOTE ++ DQUOTE ++ double_quotes s'
      else String x (double_quotes s')
  end.

(** [csv.writer] with the default dialect ([QUOTE_MINIMAL]): a field holding
    the delimiter, the quote character or a line-terminator character is
    quoted, with its quotes doubled. *)
Definition csv_field (s : string) : string :=
  if contains_char "," s || contains_char (ascii_of_nat 34) s
     || contains_char (ascii_of_nat 13) s || contains_char (ascii_of_nat 10) s
  then DQUOTE ++ double_quotes s ++ DQUOTE
  else s.

Fixpoint join_fields (fs : list string) : string :=
  match fs with
  | [] => EmptyString
  | [f] => csv_field f
  | f :: fs' => csv_field f ++ COMMA ++ join_fields fs'
  end.

(** [writer.writerow]: fields joined by [,], terminated by [\r\n]. *)
Definition csv_row (fs : list string) : string := join_fields fs ++ CR ++ LF.

Definition csv_header : list string :=
  ["User ID"; "Username"; "First Name"; "Total Messages";
   "First Activity"; "Last Activity"].

(** A row of the export query: [user_id], [COALESCE(username, 'N/A')],
    [COALESCE(first_name, 'Unknown')], [COUNT], [MIN(date)], [MAX(date)]. *)
Record export_row := mk_export {
  e_user_id : Z;
  e_username : string;
  e_first_name : string;
  e_total : Z;
  e_first_activity : string;
  e_last_activity : string
}.

Fixpoint bump_export (r : activity_row) (acc : list export_row) : list export_row :=
  match acc with
  | [] => [mk_export (a_user_id r) (coalesce (a_username r) "N/A")
                     (coalesce (a_first_name r) "Unknown") 1 (a_date r) (a_date r)]
  | e :: rest =>
      if Z.eqb (e_user_id e) (a_user_id r)
      then mk_export (e_user_id e) (e_username e) (e_first_name e) (e_total e + 1)
                     (text_min (e_first_activity e) (a_date r))
                     (text_max (e_last_activity e) (a_date r)) :: rest
      else e :: bump_export r rest
  end.

Definition export_query (cutoff : string) (chat_id : Z) (d : db) : list export_row :=
  sort_desc e_total
    (fold_left (fun acc r => bump_export r acc)
               (filter (in_window chat_id cutoff) (activity d)) []).

Definition export_fields (e : export_row) : list string :=
  [z_to_str (e_user_id e); e_username e; e_first_name e; z_to_str (e_total e);
   e_first_activity e; e_last_activity e].

(** [export_to_csv]: header row, then [writer.writerows(results)]; [None]
    is the [except] branch. *)
Definition export_to_csv (day_of : Z -> string) (now : Z) (chat_id days : Z) (d : db)
    : option string :=
  match cutoff_instant now days with
  | None => None
  | Some _ =>
      let results := export_query (cutoff_date day_of now days) chat_id d in
      Some (csv_row csv_header ++ concat EmptyString (map (fun e => csv_row (export_fields e)) results))
  end.

(** Reading the first record of CSV text whose first line is unquoted:
    the fields are split at [,] up to the first [\r] or [\n]. *)
Fixpoint read_first_record (s : string) (cur : string) : list string :=
  match s with
  | EmptyString => [cur]
  | String c s' =>
      if Ascii.eqb c (ascii_of_nat 13) || Ascii.eqb c (ascii_of_nat 10) then [cur]
      else if Ascii.eqb c "," then cur :: read_first_record s' EmptyString
      else read_first_record s' (cur ++ String c EmptyString)
  end.

Definition parse_header (s : string) : list string := read_first_record s EmptyString.

(** ** Backup/restore bridge *)

(** A record of [backup_sheet.get_all_records()]. *)
Record backup_record := mk_record {
  r_chat_id : Z;
  r_group_name : option string;
  r_status : string;
  r_trial_end_date : option Z;
  r_subscription_end_date : option Z;
  r_added_date : Z
}.

(** [INSERT OR REPLACE INTO groups ...]: the row with the same primary key
    is deleted, the new row is inserted. *)
Definition insert_or_replace (g : group_row) (gs : list group_row) : list group_row :=
  filter (fun h => negb (Z.eqb (g_chat_id h) (g_chat_id g))) gs ++ [g].

Definition group_of_record (r : backup_record) : group_row :=
  mk_group (r_chat_id r) (r_group_name r) (r_status r) (r_trial_end_date r)
           (r_subscription_end_date r) (r_added_date r).

(** [restore_from_sheets]: [backup_sheet] is [None] when no sheet is
    configured, otherwise the records the sheet holds. *)
Definition restore_from_sheets (backup_sheet : option (list backup_record)) (d : db)
    : bool * string * db :=
  match backup_sheet with
  | None => (false, "Backup sheet not configured", d)
  | Some records =>
      match records with
      | [] => (false, "No backup data found", d)
      | _ =>
          let gs := fold_left (fun gs r => insert_or_replace (group_of_record r) gs)
                              records (groups d) in
          let restored := Z.of_nat (List.length records) in
          (true, "Restored " ++ z_to_str restored ++ " groups from backup",
           mk_db gs (activity d))
      end
  end.

(** ** Command arguments *)

(** A Python [str] is given by its UTF-8 encoding: [utf8_decode] reads the
    code points of a well-formed encoding (shortest forms, no surrogates, at
    most U+10FFFF). *)
Definition byte_val (c : ascii) : Z := Z.of_nat (nat_of_ascii c).

Definition is_cont (c : ascii) : bool :=
  Z.leb 128 (byte_val c) && Z.ltb (byte_val c) 192.

Definition cont_bits (c : ascii) : Z := byte_val c - 128.

Fixpoint utf8_decode (s : string) : option (list Z) :=
  match s with
  | EmptyString => Some []
  | String c1 r1 =>
      let b1 := byte_val c1 in
      if Z.ltb b1 128 then option_map (cons b1) (utf8_decode r1)
      else if Z.leb 194 b1 && Z.ltb b1 224 then
        match r1 with
        | String c2 r2 =>
            if is_cont c2 then option_map (cons ((b1 - 192) * 64 + cont_bits c2)) (utf8_decode r2)
            else None
        | EmptyString => None
        end
      else if Z.leb 224 b1 && Z.ltb b1 240 then
        match r1 with
        | String c2 (String c3 r3) =>
            let cp := (b1 - 224) * 4096 + cont_bits c2 * 64 + cont_bits c3 in
            if is_cont c2 && is_cont c3 && Z.leb 2048 cp
               && negb (Z.leb 55296 cp && Z.leb cp 57343)
            then option_map (cons cp) (utf8_decode r3) else None
        | _ => None
        end
      else if Z.leb 240 b1 && Z.ltb b1 245 then
        match r1 with
        | String c2 (String c3 (String c4 r4)) =>
            let cp := (b1 - 240) * 262144 + cont_bits c2 * 4096 + cont_bits c3 * 64
                      + cont_bits c4 in
            if is_cont c2 && is_cont c3 && is_cont c4 && Z.leb 65536 cp
               && Z.leb cp 1114111
            then option_map (cons cp) (utf8_decode r4) else None
        | _ => None
        end
      else None
  end.

(** The Unicode database of Python 3.11 (Unicode 14.0).  The decimal digits
    (Numeric_Type=Decimal) come in 66 runs of ten code points with values 0
    to 9; these are their first code points. *)
Definition decimal_zeros : list Z :=
  [48; 1632; 1776; 1984; 2406; 2534; 2662; 2790; 2918; 3046; 3174; 3302; 3430;
   3558; 3664; 3792; 3872; 4160; 4240; 6112; 6160; 6470; 6608; 6784; 6800; 6992;
   7088; 7232; 7248; 42528; 43216; 43264; 43472; 43504; 43600; 44016; 65296;
   66720; 68912; 69734; 69872; 69942; 70096; 70384; 70736; 70864; 71248; 71360;
   71472; 71904; 72016; 72784; 73040; 73120; 92768; 92864; 93008; 120782;
   120792; 120802; 120812; 120822; 123200; 123632; 125264; 130032].

(** The other digits (Numeric_Type=Digit: superscripts, subscripts, circled
    digits, ...), as closed ranges of code points. *)
Definition digit_only_ranges : list (Z * Z) :=
  [(178, 179); (185, 185); (4969, 4977); (6618, 6618); (8304, 8304);
   (8308, 8313); (8320, 8329); (9312, 9320); (9332, 9340); (9352, 9360);
   (9450, 9450); (9461, 9469); (9471, 9471); (10102, 10110); (10112, 10120);
   (10122, 10130); (68160, 68163); (69216, 69224); (69714, 69722);
   (127232, 127242)].

(** The value of a decimal digit, [None] for any other code point. *)
Fixpoint decimal_value_in (zeros : list Z) (cp : Z) : option Z :=
  match zeros with
  | [] => None
  | z :: zs => if Z.leb z cp && Z.leb cp (z + 9) then Some (cp - z) else decimal_value_in zs cp
  end.

Definition decimal_value (cp : Z) : option Z := decimal_value_in decimal_zeros cp.

(** A character that [str.isdigit] accepts: a decimal or another digit. *)
Definition is_digit_char (cp : Z) : bool :=
  match decimal_value cp with
  | Some _ => true
  | None => existsb (fun r => Z.leb (fst r) cp && Z.leb cp (snd r)) digit_only_ranges
  end.

(** [str.isdigit()]: non-empty and every character a digit. *)
Definition isdigit (s : string) : bool :=
  match utf8_decode s with
  | Some ((_ :: _) as cps) => forallb is_digit_char cps
  | _ => false
  end.

(** The value of a list of decimal digits, [None] at the first character
    that is not one. *)
Fixpoint py_int_acc (cps : list Z) (acc : Z) : option Z :=
  match cps with
  | [] => Some acc
  | cp :: cps' =>
      match decimal_value cp with
      | Some v => py_int_acc cps' (10 * acc + v)
      | None => None
      end
  end.

(** The limit [sys.get_int_max_str_digits()] of Python 3.11 on the digits
    that [int] converts from a string. *)
Definition int_max_str_digits : nat := 4300.

(** [int(s)] on a string that passed [isdigit] (no sign, space or
    underscore): every decimal digit, of any script, counts with its value;
    [None] is the [ValueError] raised on a digit that is not a decimal (a
    superscript, say) or on more than [int_max_str_digits] digits. *)
Definition py_int (s : string) : option Z :=
  match utf8_decode s with
  | Some cps =>
      if Nat.ltb int_max_str_digits (List.length cps) then None else py_int_acc cps 0
  | None => None
  end.

(** The window of [leaderboard_command]: 7 by default; an argument that
    passes [isdigit] is converted with [int] and capped with
    [min(days, 30)]; [None] is the [ValueError] of that conversion, which
    the handler does not catch. *)
Definition leaderboard_days (args : list string) : option Z :=
  match args with
  | s :: _ => if isdigit s then option_map (fun v => Z.min v 30) (py_int s) else Some 7
  | [] => Some 7
  end.

(** [peak_times_command] always queries [get_peak_hours(chat.id, days=7)]. *)
Definition peak_times_days (args : list string) : Z := 7.

(** The window of [export_data_command]: 30 by default, capped at 90;
    [None] as for [leaderboard_days]. *)
Definition export_days (args : list string) : option Z :=
  match args with
  | s :: _ => if isdigit s then option_map (fun v => Z.min v 90) (py_int s) else Some 30
  | [] => Some 30
  end.

(** ** Group admins *)

(** A row of [group_admins]; [UNIQUE(chat_id, user_id)].  The
    autoincrement [id] is never read and is left out. *)
Record admin_row := mk_admin {
  ad_chat_id : Z;
  ad_user_id : Z;
  ad_role : string;
  ad_added_date : Z
}.

Definition admin_match (chat_id user_id : Z) (a : admin_row) : bool :=
  Z.eqb (ad_chat_id a) chat_id && Z.eqb (ad_user_id a) user_id.

(** [SELECT COUNT] of the rows of [group_admins] WHERE chat_id = ? AND user_id = ?] *)
Definition count_admins (chat_id user_id : Z) (admins : list admin_row) : nat :=
  List.length (filter (admin_match chat_id user_id) admins).

(** [add_group_admin]: [INSERT OR IGNORE] under [UNIQUE(chat_id, user_id)];
    returns [True]. *)
Definition add_group_admin (now chat_id user_id : Z) (admins : list admin_row)
    : bool * list admin_row :=
  if Nat.ltb 0 (count_admins chat_id user_id admins) then (true, admins)
  else (true, (admins ++ [mk_admin chat_id user_id "admin" now])%list).

Definition is_super_admin (super_admin_id user_id : Z) : bool :=
  Z.eqb user_id super_admin_id.

Definition is_group_admin (super_admin_id chat_id user_id : Z) (admins : list admin_row) : bool :=
  if is_super_admin super_admin_id user_id then true
  else Nat.ltb 0 (count_admins chat_id user_id admins).

(** ** Peak hours *)

(** A [GROUP BY] bucket on an integer column with its [COUNT]. *)
Fixpoint bump_count (key : activity_row -> Z) (r : activity_row) (acc : list (Z * Z))
    : list (Z * Z) :=
  match acc with
  | [] => [(key r, 1)]
  | (k, c) :: rest =>
      if Z.eqb k (key r) then (k, c + 1) :: rest else (k, c) :: bump_count key r rest
  end.

Definition group_count (key : activity_row -> Z) (rows : list activity_row) : list (Z * Z) :=
  fold_left (fun acc r => bump_count key r acc) rows [].

(** [get_peak_hours]: [GROUP BY hour ORDER BY count DESC LIMIT 5]. *)
Definition get_peak_hours_at (cutoff : string) (chat_id : Z) (d : db) : list (Z * Z) :=
  sql_limit 5 (sort_desc snd (group_count a_hour (filter (in_window chat_id cutoff) (activity d)))).

Definition get_peak_hours (day_of : Z -> string) (now chat_id days : Z) (d : db) : list (Z * Z) :=
  match cutoff_instant now days with
  | None => []
  | Some _ => get_peak_hours_at (cutoff_date day_of now days) chat_id d
  end.

(** ** Group listings *)

Definition is_pending (g : group_row) : bool := String.eqb (g_status g) "pending".

(** [get_pending_groups]: [chat_id, group_name, added_date] of the pending
    rows, [ORDER BY added_date DESC]. *)
Definition get_pending_groups (d : db) : list (Z * option string * Z) :=
  map (fun g => (g_chat_id g, g_group_name g, g_added_date g))
      (sort_desc g_added_date (filter is_pending (groups d))).

Definition is_trial_or_active (g : group_row) : bool :=
  String.eqb (g_status g) "trial" || String.eqb (g_status g) "active".

(** A row of [get_all_active_groups]. *)
Record active_group := mk_active {
  ag_chat_id : Z;
  ag_group_name : option string;
  ag_status : string;
  ag_trial_end_date : option Z;
  ag_subscription_end_date : option Z;
  ag_unique_users : Z;
  ag_total_messages : Z
}.

(** [get_all_active_groups]: [groups LEFT JOIN activity] grouped by
    [chat_id], rows with stored status trial or active,
    [ORDER BY added_date DESC]; [COUNT(DISTINCT a.user_id)] and
    [COUNT(a.id)] are 0 for a group without activity. *)
Definition get_all_active_groups (d : db) : list active_group :=
  map (fun g =>
         let rows := filter (fun r => Z.eqb (a_chat_id r) (g_chat_id g)) (activity d) in
         mk_active (g_chat_id g) (g_group_name g) (g_status g) (g_trial_end_date g)
                   (g_subscription_end_date g) (count_distinct_users rows)
                   (Z.of_nat (List.length rows)))
      (sort_desc g_added_date (filter is_trial_or_active (groups d))).

(** ** Command handlers *)

(** The replies of [start_command]. *)
Inductive start_reply := NeedsAuthorization | ExpiredNotice | Welcome.

Definition start_command (now : Z) (c : chat) (d : db) : start_reply * db :=
  if is_group_chat c then
    let '(status, d1) := get_group_status now (c_id c) d in
    match status with
    | Some s =>
        if String.eqb s "pending" then (NeedsAuthorization, d1)
        else if String.eqb s "expired" then (ExpiredNotice, d1)
        else (Welcome, d1)
    | None => (Welcome, d1)
    end
  else (Welcome, d).

(** The replies of [leaderboard_command]; [LbRaised] is the [ValueError]
    of [int] leaving the handler, with no reply. *)
Inductive leaderboard_reply :=
| LbNotGroup
| LbNotAuthorized
| LbNoData
| LbBoard (days : Z) (entries : list (Z * string * Z))
| LbRaised.

Definition leaderboard_command (day_of : Z -> string) (now : Z) (c : chat)
    (args : list string) (d : db) : leaderboard_reply * db :=
  if negb (is_group_chat c) then (LbNotGroup, d)
  else
    let '(status, d1) := get_group_status now (c_id c) d in
    if negb (status_permits status) then (LbNotAuthorized, d1)
    else
      match leaderboard_days args with
      | None => (LbRaised, d1)
      | Some days =>
          match get_top_contributors day_of now (c_id c) days 10 d1 with
          | [] => (LbNoData, d1)
          | contributors => (LbBoard days contributors, d1)
          end
      end.

(** The replies of [export_data_command]; [ExRaised] as [LbRaised]. *)
Inductive export_reply :=
| ExNotGroup
| ExNotAdmin
| ExNotAuthorized
| ExFailed
| ExDocument (days : Z) (csv_data : string)
| ExRaised.

Definition export_data_command (day_of : Z -> string) (now super_admin_id : Z)
    (admins : list admin_row) (c : chat) (u : user) (args : list string) (d : db)
    : export_reply * db :=
  if negb (is_group_chat c) then (ExNotGroup, d)
  else if negb (is_group_admin super_admin_id (c_id c) (u_id u) admins) then (ExNotAdmin, d)
  else
    let '(status, d1) := get_group_status now (c_id c) d in
    if negb (status_permits status) then (ExNotAuthorized, d1)
    else
      match export_days args with
      | None => (ExRaised, d1)
      | Some days =>
          match export_to_csv day_of now (c_id c) days d1 with
          | Some csv_data =>
              if String.eqb csv_data EmptyString then (ExFailed, d1)
              else (ExDocument days csv_data, d1)
          | None => (ExFailed, d1)
          end
      end.

(** The replies of [peak_times_command]. *)
Inductive peak_times_reply :=
| PkNotGroup
| PkNotAuthorized
| PkNoData
| PkHours (hours : list (Z * Z)).

Definition peak_times_command (day_of : Z -> string) (now : Z) (c : chat)
    (args : list string) (d : db) : peak_times_reply * db :=
  if negb (is_group_chat c) then (PkNotGroup, d)
  else
    let '(status, d1) := get_group_status now (c_id c) d in
    if negb (status_permits status) then (PkNotAuthorized, d1)
    else
      match get_peak_hours day_of now (c_id c) (peak_times_days args) d1 with
      | [] => (PkNoData, d1)
      | peak_hours => (PkHours peak_hours, d1)
      end.

(** The replies of [community_stats_command]; [CsFailed] is the
    [if not stats] branch. *)
Inductive community_stats_reply :=
| CsNotGroup
| CsNotAuthorized
| CsFailed
| CsStats (stats : overall_stats).

Definition community_stats_command (day_of : Z -> string) (now : Z) (c : chat) (d : db)
    : community_stats_reply * db :=
  if negb (is_group_chat c) then (CsNotGroup, d)
  else
    let '(status, d1) := get_group_status now (c_id c) d in
    if negb (status_permits status) then (CsNotAuthorized, d1)
    else
      match get_overall_stats day_of now (c_id c) d1 with
      | Some stats => (CsStats stats, d1)
      | None => (CsFailed, d1)
      end.

(** ** Super-admin commands *)

(** The replies of the super-admin commands: [AdmSilent] is the bare
    [return] for another user, [AdmUsage] the usage text, [AdmInvalid] the
    [except ValueError] branch, and [AdmResult ok] the reply on the value
    returned by the tracker method. *)
Inductive admin_reply := AdmSilent | AdmUsage | AdmInvalid | AdmResult (ok : bool).

Section AdminCommands.

(** Python's [int(s)] on a command argument; [None] is the [ValueError].
    Its exact syntax is left open. *)
Variable parse_int : string -> option Z.

(** The optional second argument: [default] when absent. *)
Definition optional_int_arg (rest : list string) (default : Z) : option Z :=
  match rest with
  | [] => Some default
  | a1 :: _ => parse_int a1
  end.

Definition approve_trial_command (now super_admin_id : Z) (u : user) (args : list string)
    (d : db) : admin_reply * db :=
  if negb (is_super_admin super_admin_id (u_id u)) then (AdmSilent, d)
  else
    match args with
    | [] => (AdmUsage, d)
    | a0 :: rest =>
        match parse_int a0 with
        | None => (AdmInvalid, d)
        | Some chat_id =>
            match optional_int_arg rest 48 with
            | None => (AdmInvalid, d)
            | Some hours =>
                let '(ok, d1) := approve_group_trial now chat_id hours d in (AdmResult ok, d1)
            end
        end
    end.

Definition extend_subscription_command (now super_admin_id : Z) (u : user)
    (args : list string) (d : db) : admin_reply * db :=
  if negb (is_super_admin super_admin_id (u_id u)) then (AdmSilent, d)
  else
    match args with
    | [] => (AdmUsage, d)
    | a0 :: rest =>
        match parse_int a0 with
        | None => (AdmInvalid, d)
        | Some chat_id =>
            match optional_int_arg rest 30 with
            | None => (AdmInvalid, d)
            | Some days =>
                let '(ok, d1) := extend_subscription now chat_id days d in (AdmResult ok, d1)
            end
        end
    end.

Definition revoke_access_command (super_admin_id : Z) (u : user) (args : list string)
    (d : db) : admin_reply * db :=
  if negb (is_super_admin super_admin_id (u_id u)) then (AdmSilent, d)
  else
    match args with
    | [] => (AdmUsage, d)
    | a0 :: _ =>
        match parse_int a0 with
        | None => (AdmInvalid, d)
        | Some chat_id =>
            let '(ok, d1) := update_group_status chat_id "expired" d in (AdmResult ok, d1)
        end
    end.

(** [add_group_admin_command] works on the [group_admins] table. *)
Definition add_group_admin_command (now super_admin_id : Z) (u : user) (args : list string)
    (admins : list admin_row) : admin_reply * list admin_row :=
  if negb (is_super_admin super_admin_id (u_id u)) then (AdmSilent, admins)
  else
    match args with
    | a0 :: a1 :: _ =>
        match parse_int a0 with
        | None => (AdmInvalid, admins)
        | Some chat_id =>
            match parse_int a1 with
            | None => (AdmInvalid, admins)
            | Some admin_user_id =>
                let '(ok, admins1) := add_group_admin now chat_id admin_user_id admins in
                (AdmResult ok, admins1)
            end
        end
    | _ => (AdmUsage, admins)
    end.

End AdminCommands.

(** ** Auxiliary definitions for the proofs *)

(** [ORDER BY ... DESC] as a relation between neighbours. *)
Definition desc {A} (key : A -> Z) (x y : A) : Prop := key y <= key x.

Definition trial_fields (now hours : Z) (g : group_row) : group_row :=
  mk_group (g_chat_id g) (g_group_name g) "trial" (Some (now + hours * microseconds_per_hour))
           (g_subscription_end_date g) (g_added_date g).

(** 2026-10-19 00:00, the clock of the concrete checks and the witnesses. *)
Definition sample_now : Z := 739907 * microseconds_per_day.

(** A string given by its bytes. *)
Fixpoint string_of_bytes (l : list nat) : string :=
  match l with
  | [] => EmptyString
  | b :: l' => String (ascii_of_nat b) (string_of_bytes l')
  end.

(** The argument "365" written with the superscript digits U+00B3 U+2076
    U+2075, in UTF-8. *)
Definition superscript_365 : string := string_of_bytes [194; 179; 226; 129; 182; 226; 129; 181]%nat.

(** The argument "14" written with the Extended Arabic-Indic digits U+06F1
    U+06F4, in UTF-8. *)
Definition persian_14 : string := string_of_bytes [219; 177; 219; 180]%nat.

(** Sample tables used by the concrete checks and the witnesses. *)
Definition sample_group : group_row := mk_group (-100) (Some "Felix") "pending" None None 0.
Definition sample_db : db := mk_db [sample_group] [].

(** The status [track_message] evaluates for an update in a group chat:
    registration first, then [get_group_status]. *)
Definition evaluated_status (now : Z) (c : chat) (d : db) : option string * db :=
  get_group_status now (c_id c) (snd (register_group now (c_id c) (c_title c) d)).

Definition sample_chat : chat := mk_chat (-100) "supergroup" (Some "Felix").
Definition sample_update : update :=
  mk_update (Some (mk_message "hello" false false false false false)) (Some sample_chat)
            (mk_user 7 (Some "felix") (Some "Felix")).
Definition expired_trial_db : db :=
  mk_db [mk_group (-100) (Some "Felix") "trial" (Some 10) None 0] [].

Definition ckey (x : Z * string * Z) : Z := let '(u, _, _) := x in u.

Definition ucount (u : Z) (rows : list activity_row) : nat :=
  List.length (filter (fun r => Z.eqb (a_user_id r) u) rows).

(** The invariant of the [GROUP BY user_id] fold over the rows seen so far. *)
Definition group_inv (rows : list activity_row) (acc : list (Z * string * Z)) : Prop :=
  NoDup (map ckey acc) /\
  (forall u n c, In (u, n, c) acc -> c = Z.of_nat (ucount u rows)) /\
  (forall u, ~ In u (map ckey acc) -> ucount u rows = 0%nat).

Definition scenario_events : list activity_row :=
  [mk_activity (-100) 7 (Some "felix") (Some "Felix") 0 "text" "2026-10-19" 12;
   mk_activity (-100) 7 (Some "felix") (Some "Felix") 1 "text" "2026-10-19" 12;
   mk_activity (-100) 7 (Some "felix") (Some "Felix") 2 "photo" "2026-10-19" 12;
   mk_activity (-100) 7 (Some "felix") (Some "Felix") 3 "text" "2026-10-19" 12].

Definition active_trial_db : db :=
  mk_db [mk_group (-100) (Some "Felix") "trial" (Some 100) None 0] [].

Definition two_user_db : db :=
  mk_db [] [mk_activity (-100) 7 (Some "felix") None 0 "text" "2026-10-19" 12;
            mk_activity (-100) 8 None (Some "Ana") 1 "photo" "2026-10-19" 12].

Definition rows_of (c : Z) (gs : list group_row) : list group_row :=
  filter (fun h => Z.eqb (g_chat_id h) c) gs.

Definition restore_fold (records : list backup_record) (gs : list group_row) : list group_row :=
  fold_left (fun gs r => insert_or_replace (group_of_record r) gs) records gs.

Definition sample_records : list backup_record :=
  [mk_record (-100) (Some "Felix") "active" None (Some 500) 0;
   mk_record (-300) (Some "Other") "trial" (Some 50) None 1].

Definition kcount (key : activity_row -> Z) (k : Z) (rows : list activity_row) : nat :=
  List.length (filter (fun r => Z.eqb (key r) k) rows).

Definition count_inv (key : activity_row -> Z) (rows : list activity_row) (acc : list (Z * Z)) : Prop :=
  NoDup (map fst acc) /\
  (forall k c, In (k, c) acc -> c = Z.of_nat (kcount key k rows)) /\
  (forall k, ~ In k (map fst acc) -> kcount key k rows = 0%nat).

Definition pending_added (x : Z * option string * Z) : Z := let '(_, _, a) := x in a.

Definition export_proj (e : export_row) : Z * Z := (e_user_id e, e_total e).

Definition contributor_proj (x : Z * string * Z) : Z * Z := let '(u, _, c) := x in (u, c).

Definition trial_two_user_db : db := mk_db (groups active_trial_db) (activity two_user_db).

(** A trial that runs 48 hours past [sample_now], with the events of [two_user_db]. *)
Definition live_trial_db : db :=
  mk_db [mk_group (-100) (Some "Felix") "trial" (Some (sample_now + 48 * microseconds_per_hour))
                  None 0]
        (activity two_user_db).

Definition sample_user : user := mk_user 7 (Some "felix") (Some "Felix").

Ltac admin_command_step :=
  match goal with
  | |- context [if ?b then _ else _] => destruct b
  | |- context [match ?x with [] => _ | _ :: _ => _ end] => destruct x
  | |- context [match ?x with Some _ => _ | None => _ end] => destruct x
  end.

Ltac admin_command_cases :=
  repeat first [ admin_command_step
               | progress cbn [fst snd approve_group_trial extend_subscription
                               update_group_status activity] ].

(** ** Concrete checks *)

Example leaderboard_days_ex : leaderboard_days ["365"] = Some 30 /\ leaderboard_days ["12"] = Some 12
  /\ leaderboard_days ["-5"] = Some 7 /\ export_days ["120"] = Some 90
  /\ leaderboard_days [persian_14] = Some 14.
Proof. repeat split; reflexivity. Qed.

Example z_to_str_ex : z_to_str 1234 = "1234" /\ z_to_str (-100) = "-100" /\ z_to_str 0 = "0".
Proof. repeat split; reflexivity. Qed.

Example header_ex : parse_header (csv_row csv_header) = csv_header.
Proof. reflexivity. Qed.

(** Three text and one photo event of user 7 in chat -100. *)
Example scenario_top_contributors :
  get_top_contributors (fun _ => "2026-10-19") sample_now (-100) 7 10 (mk_db [] scenario_events)
  = [(7, "felix", 4)].
Proof. reflexivity. Qed.

Example scenario_overall_stats :
  get_overall_stats (fun _ => "2026-10-19") sample_now (-100) (mk_db [] (scenario_events ++ activity two_user_db)%list)
  = Some (mk_stats 6 2 6 2 6 (PyFloat (Qmake 30 10))).
Proof. reflexivity. Qed.

Example scenario_export :
  export_to_csv (fun _ => "2026-10-19") sample_now (-100) 30 two_user_db
  = Some (csv_row csv_header ++ csv_row ["7"; "felix"; "Unknown"; "1"; "2026-10-19"; "2026-10-19"]
          ++ csv_row ["8"; "N/A"; "Ana"; "1"; "2026-10-19"; "2026-10-19"]).
Proof. reflexivity. Qed.

(** A running trial lets [track_message] record the update; an ended one does not. *)
Example track_message_records_in_trial :
  List.length (activity (track_message (fun _ => "2026-10-19") (fun _ => 12) 20 sample_update
                           active_trial_db)) = 1%nat /\
  List.length (activity (track_message (fun _ => "2026-10-19") (fun _ => 12) 200 sample_update
                           active_trial_db)) = 0%nat /\
  List.length (activity (track_message (fun _ => "2026-10-19") (fun _ => 12) 20 sample_update
                           (mk_db [] []))) = 0%nat.
Proof. repeat split; reflexivity. Qed.

(** ** Lemmas on the groups table *)

Lemma find_none_filter {A} (f : A -> bool) (l : list A) :
  find f l = None -> filter f l = [].
Proof.
  induction l as [|x l IH]; simpl; [reflexivity|].
  destruct (f x); [discriminate|exact IH].
Qed.

Lemma select_group_app_new (chat_id : Z) (gs : list group_row) (g : group_row) :
  select_group chat_id gs = None -> g_chat_id g = chat_id ->
  select_group chat_id (gs ++ [g]) = Some g.
Proof.
  unfold select_group. intros Hn Hg.
  induction gs as [|h gs IH]; simpl in *.
  - rewrite Hg, Z.eqb_refl. reflexivity.
  - destruct (Z.eqb (g_chat_id h) chat_id); [discriminate|exact (IH Hn)].
Qed.

Lemma count_groups_app_new (chat_id : Z) (gs : list group_row) (g : group_row) :
  select_group chat_id gs = None -> g_chat_id g = chat_id ->
  count_groups chat_id (gs ++ [g]) = 1%nat.
Proof.
  unfold count_groups, select_group. intros Hn Hg.
  rewrite filter_app, (find_none_filter _ _ Hn). simpl.
  rewrite Hg, Z.eqb_refl. reflexivity.
Qed.

Lemma update_groups_absent (chat_id : Z) (f : group_row -> group_row) (gs : list group_row) :
  select_group chat_id gs = None -> update_groups chat_id f gs = gs.
Proof.
  unfold select_group, update_groups.
  induction gs as [|h gs IH]; simpl; [reflexivity|].
  destruct (Z.eqb (g_chat_id h) chat_id); [discriminate|].
  intro Hn. rewrite (IH Hn). reflexivity.
Qed.

Lemma select_update_groups (chat_id : Z) (f : group_row -> group_row)
    (gs : list group_row) (g : group_row) :
  (forall h, g_chat_id (f h) = g_chat_id h) ->
  select_group chat_id gs = Some g ->
  select_group chat_id (update_groups chat_id f gs) = Some (f g).
Proof.
  unfold select_group, update_groups. intros Hf.
  induction gs as [|h gs IH]; simpl; [discriminate|].
  case_eq (Z.eqb (g_chat_id h) chat_id); intro Heq.
  - intro E. injection E as <-. simpl. rewrite Hf, Heq. reflexivity.
  - rewrite Heq. exact IH.
Qed.

Lemma db_eta (d : db) : mk_db (groups d) (activity d) = d.
Proof. destruct d; reflexivity. Qed.

(** The row after [update_group_status chat_id status]. *)
Lemma select_after_status_update (chat_id : Z) (status : string) (d : db) (g : group_row) :
  select_group chat_id (groups d) = Some g ->
  exists g', select_group chat_id (groups (snd (update_group_status chat_id status d))) = Some g'
             /\ g_status g' = status.
Proof.
  intro Hs. simpl.
  eexists. split.
  - apply select_update_groups; [reflexivity|exact Hs].
  - reflexivity.
Qed.

Lemma register_group_activity (now chat_id : Z) (name : option string) (d : db) :
  activity (snd (register_group now chat_id name d)) = activity d.
Proof. unfold register_group. destruct (select_group chat_id (groups d)); reflexivity. Qed.

Lemma get_group_status_activity (now chat_id : Z) (d : db) :
  activity (snd (get_group_status now chat_id d)) = activity d.
Proof.
  unfold get_group_status.
  destruct (select_group chat_id (groups d)) as [g|]; [|reflexivity].
  destruct (String.eqb (g_status g) "trial"), (g_trial_end_date g) as [te|];
    try destruct (Z.ltb te now);
    destruct (String.eqb (g_status g) "active"), (g_subscription_end_date g) as [se|];
    try destruct (Z.ltb se now); reflexivity.
Qed.

(** * Claims *)

(** C1: on a chat_id with no Group row, a first [register_group] reports a new
    registration and a second one does not; afterwards exactly one row holds
    that chat_id, and its status is pending. *)
Theorem register_group_twice (now1 now2 chat_id : Z) (name1 name2 : option string) (d : db) :
  select_group chat_id (groups d) = None ->
  let '(created1, d1) := register_group now1 chat_id name1 d in
  let '(created2, d2) := register_group now2 chat_id name2 d1 in
  created1 = true /\ created2 = false /\ count_groups chat_id (groups d2) = 1%nat /\
  exists g, select_group chat_id (groups d2) = Some g /\ g_status g = "pending".
Proof.
  intro Hn. unfold register_group at 1. rewrite Hn.
  set (g := mk_group chat_id name1 "pending" None None now1).
  unfold register_group. cbn [groups activity].
  rewrite (select_group_app_new chat_id (groups d) g Hn eq_refl).
  repeat split.
  - apply count_groups_app_new; [exact Hn|reflexivity].
  - exists g. split; [apply select_group_app_new; [exact Hn|reflexivity]|reflexivity].
Qed.

Lemma register_group_twice_witness :
  select_group (-100) (groups (mk_db [] [])) = None /\
  let '(created1, d1) := register_group 1 (-100) (Some "Felix") (mk_db [] []) in
  let '(created2, d2) := register_group 2 (-100) (Some "Felix") d1 in
  created1 = true /\ created2 = false /\ count_groups (-100) (groups d2) = 1%nat /\
  exists g, select_group (-100) (groups d2) = Some g /\ g_status g = "pending".
Proof.
  split; [reflexivity|].
  apply (register_group_twice 1 2 (-100) (Some "Felix") (Some "Felix") (mk_db [] [])).
  reflexivity.
Defined.

Lemma expire_trial (now chat_id : Z) (d : db) (g : group_row) (te : Z) :
  select_group chat_id (groups d) = Some g -> g_status g = "trial" ->
  g_trial_end_date g = Some te -> te < now ->
  get_group_status now chat_id d = (Some "expired", snd (update_group_status chat_id "expired" d)).
Proof.
  intros Hs Hst Hte Hlt. unfold get_group_status.
  rewrite Hs, Hst, Hte. cbn - [update_group_status].
  apply Z.ltb_lt in Hlt. rewrite Hlt. reflexivity.
Qed.

Lemma expire_active (now chat_id : Z) (d : db) (g : group_row) (se : Z) :
  select_group chat_id (groups d) = Some g -> g_status g = "active" ->
  g_subscription_end_date g = Some se -> se < now ->
  get_group_status now chat_id d = (Some "expired", snd (update_group_status chat_id "expired" d)).
Proof.
  intros Hs Hst Hse Hlt. unfold get_group_status.
  rewrite Hs, Hst, Hse. cbn - [update_group_status].
  apply Z.ltb_lt in Hlt. rewrite Hlt. reflexivity.
Qed.


Lemma add_timedelta_some (now us t : Z) : add_timedelta now us = Some t -> t = now + us.
Proof.
  unfold add_timedelta. destruct (_ && _ && _); intro H; [injection H; auto|discriminate].
Qed.

Lemma add_timedelta_zero (now : Z) : add_timedelta now 0 = Some (now + 0).
Proof. reflexivity. Qed.

Lemma approve_overflow (now chat_id hours : Z) (d : db) :
  add_timedelta now (hours * microseconds_per_hour) = None ->
  approve_group_trial now chat_id hours d = (false, d).
Proof. intro H. unfold approve_group_trial. rewrite H. reflexivity. Qed.

Lemma extend_overflow (now chat_id days : Z) (d : db) :
  add_timedelta now (days * microseconds_per_day) = None ->
  extend_subscription now chat_id days d = (false, d).
Proof. intro H. unfold extend_subscription. rewrite H. reflexivity. Qed.

Lemma select_after_approve (now chat_id hours : Z) (d : db) (g : group_row) :
  add_timedelta now (hours * microseconds_per_hour) <> None ->
  select_group chat_id (groups d) = Some g ->
  select_group chat_id (groups (snd (approve_group_trial now chat_id hours d)))
  = Some (trial_fields now hours g).
Proof.
  intros Hok Hs. unfold approve_group_trial.
  destruct (add_timedelta now (hours * microseconds_per_hour)) as [t|] eqn:Ht; [|congruence].
  apply add_timedelta_some in Ht. subst t.
  apply (select_update_groups chat_id (trial_fields now hours)); [reflexivity|exact Hs].
Qed.

(** C2: lazy expiry.  A trial (resp. active) row whose trial_end_date (resp.
    subscription_end_date) is strictly before the read instant evaluates to
    expired, and the returned database holds status expired for that row.  In
    particular, after [approve_group_trial] with 0 hours, any later read
    evaluates to expired and persists it. *)
Theorem get_group_status_lazy_expiry :
  (forall now chat_id d g te,
     select_group chat_id (groups d) = Some g -> g_status g = "trial" ->
     g_trial_end_date g = Some te -> te < now ->
     fst (get_group_status now chat_id d) = Some "expired" /\
     exists g', select_group chat_id (groups (snd (get_group_status now chat_id d))) = Some g'
                /\ g_status g' = "expired") /\
  (forall now chat_id d g se,
     select_group chat_id (groups d) = Some g -> g_status g = "active" ->
     g_subscription_end_date g = Some se -> se < now ->
     fst (get_group_status now chat_id d) = Some "expired" /\
     exists g', select_group chat_id (groups (snd (get_group_status now chat_id d))) = Some g'
                /\ g_status g' = "expired") /\
  (forall now0 now1 chat_id d,
     select_group chat_id (groups d) <> None -> now0 < now1 ->
     let d1 := snd (approve_group_trial now0 chat_id 0 d) in
     fst (get_group_status now1 chat_id d1) = Some "expired" /\
     exists g', select_group chat_id (groups (snd (get_group_status now1 chat_id d1))) = Some g'
                /\ g_status g' = "expired").
Proof.
  split; [|split].
  - intros now chat_id d g te Hs Hst Hte Hlt.
    rewrite (expire_trial now chat_id d g te Hs Hst Hte Hlt).
    split; [reflexivity|exact (select_after_status_update chat_id "expired" d g Hs)].
  - intros now chat_id d g se Hs Hst Hse Hlt.
    rewrite (expire_active now chat_id d g se Hs Hst Hse Hlt).
    split; [reflexivity|exact (select_after_status_update chat_id "expired" d g Hs)].
  - intros now0 now1 chat_id d Hex Hlt d1.
    destruct (select_group chat_id (groups d)) as [g|] eqn:Hs; [|contradiction].
    assert (Hs1 : select_group chat_id (groups d1) = Some (trial_fields now0 0 g))
      by (apply select_after_approve; [rewrite Z.mul_0_l, add_timedelta_zero; discriminate
                                      |exact Hs]).
    assert (Hlt' : now0 + 0 * microseconds_per_hour < now1) by lia.
    rewrite (expire_trial now1 chat_id d1 _ _ Hs1 eq_refl eq_refl Hlt').
    split; [reflexivity|exact (select_after_status_update chat_id "expired" d1 _ Hs1)].
Qed.


Lemma get_group_status_lazy_expiry_witness :
  select_group (-100) (groups sample_db) <> None /\ 5 < 6 /\
  let d1 := snd (approve_group_trial 5 (-100) 0 sample_db) in
  fst (get_group_status 6 (-100) d1) = Some "expired" /\
  exists g', select_group (-100) (groups (snd (get_group_status 6 (-100) d1))) = Some g'
             /\ g_status g' = "expired".
Proof.
  split; [discriminate|split; [lia|]].
  apply (proj2 (proj2 get_group_status_lazy_expiry) 5 6 (-100) sample_db);
    [discriminate|lia].
Defined.

(** C7: with a configured backup sheet that holds no records,
    [restore_from_sheets] reports failure with the message
    "No backup data found" and returns the database unchanged. *)
Theorem restore_empty_sheet_unchanged (d : db) :
  restore_from_sheets (Some []) d = (false, "No backup data found", d).
Proof. reflexivity. Qed.

(** C9 (as amended): on a chat_id with no Group row, [approve_group_trial],
    [extend_subscription] and [update_group_status] (used by revoke) all
    leave the database as it was; revoke reports [True]; approve and extend
    report [True] exactly when the new deadline [now + timedelta(...)] is a
    valid datetime, and [False] (the caught [OverflowError]) otherwise. *)
Theorem lifecycle_commands_on_missing_group (now chat_id hours days : Z) (status : string) (d : db) :
  select_group chat_id (groups d) = None ->
  snd (approve_group_trial now chat_id hours d) = d /\
  (fst (approve_group_trial now chat_id hours d) = true <->
   add_timedelta now (hours * microseconds_per_hour) <> None) /\
  snd (extend_subscription now chat_id days d) = d /\
  (fst (extend_subscription now chat_id days d) = true <->
   add_timedelta now (days * microseconds_per_day) <> None) /\
  update_group_status chat_id status d = (true, d).
Proof.
  intro Hn. unfold approve_group_trial, extend_subscription, update_group_status.
  destruct (add_timedelta now (hours * microseconds_per_hour));
    destruct (add_timedelta now (days * microseconds_per_day));
    rewrite ?update_groups_absent by exact Hn; rewrite db_eta; cbn [fst snd];
    repeat split; try reflexivity; try discriminate; intro H; exfalso; apply H; reflexivity.
Qed.

Lemma lifecycle_commands_on_missing_group_witness :
  select_group (-200) (groups sample_db) = None /\
  snd (approve_group_trial sample_now (-200) 48 sample_db) = sample_db /\
  (fst (approve_group_trial sample_now (-200) 48 sample_db) = true <->
   add_timedelta sample_now (48 * microseconds_per_hour) <> None) /\
  snd (extend_subscription sample_now (-200) 30 sample_db) = sample_db /\
  (fst (extend_subscription sample_now (-200) 30 sample_db) = true <->
   add_timedelta sample_now (30 * microseconds_per_day) <> None) /\
  update_group_status (-200) "expired" sample_db = (true, sample_db).
Proof.
  split; [reflexivity|].
  apply (lifecycle_commands_on_missing_group sample_now (-200) 48 30 "expired" sample_db).
  reflexivity.
Defined.

(** C9, as first stated, fails: with [hours = 10 ** 9] the deadline lies
    beyond year 9999, [datetime + timedelta] raises [OverflowError], and
    [approve_group_trial] returns [False]. *)
Lemma lifecycle_commands_on_missing_group_overflow :
  ~ (forall now chat_id hours days status d,
       select_group chat_id (groups d) = None ->
       approve_group_trial now chat_id hours d = (true, d) /\
       extend_subscription now chat_id days d = (true, d) /\
       update_group_status chat_id status d = (true, d)).
Proof.
  intro H.
  destruct (H sample_now (-200) (10 ^ 9) 30 "expired" sample_db eq_refl) as [Ha _].
  rewrite approve_overflow in Ha by reflexivity. discriminate.
Qed.

(** C10: with no Group row, [get_group_status] returns [None] and leaves the
    database unchanged; the gate of [track_message] rejects [None] as it
    rejects pending and expired. *)
Theorem get_group_status_missing (now chat_id : Z) (d : db) :
  select_group chat_id (groups d) = None ->
  get_group_status now chat_id d = (None, d) /\
  status_permits None = false /\
  status_permits (Some "pending") = false /\
  status_permits (Some "expired") = false.
Proof.
  intro Hn. unfold get_group_status. rewrite Hn. repeat split.
Qed.

Lemma get_group_status_missing_witness :
  select_group (-200) (groups sample_db) = None /\
  get_group_status 0 (-200) sample_db = (None, sample_db) /\
  status_permits None = false /\
  status_permits (Some "pending") = false /\
  status_permits (Some "expired") = false.
Proof.
  split; [reflexivity|].
  apply (get_group_status_missing 0 (-200) sample_db). reflexivity.
Defined.


Lemma track_message_unfold (day_of : Z -> string) (hour_of : Z -> Z) (now : Z)
    (upd : update) (msg : message) (c : chat) (d : db) :
  up_message upd = Some msg -> up_chat upd = Some c -> is_group_chat c = true ->
  track_message day_of hour_of now upd d =
  let '(status, d2) := evaluated_status now c d in
  if negb (status_permits status) then d2
  else log_activity day_of hour_of now (c_id c) (u_id (up_user upd))
         (u_username (up_user upd)) (u_first_name (up_user upd)) (message_type msg) d2.
Proof.
  intros Hm Hc Hg. unfold track_message, evaluated_status. rewrite Hm, Hc, Hg. simpl.
  destruct (register_group now (c_id c) (c_title c) d) as [b d1]. simpl.
  destruct (get_group_status now (c_id c) d1). reflexivity.
Qed.

Lemma evaluated_status_activity (now : Z) (c : chat) (d : db) :
  activity (snd (evaluated_status now c d)) = activity d.
Proof.
  unfold evaluated_status. rewrite get_group_status_activity, register_group_activity.
  reflexivity.
Qed.

Lemma register_existing (now chat_id : Z) (name : option string) (d : db) (g : group_row) :
  select_group chat_id (groups d) = Some g -> register_group now chat_id name d = (false, d).
Proof. intro Hs. unfold register_group. rewrite Hs. reflexivity. Qed.

(** C6: [track_message] adds an activity row only when the status it
    evaluates is trial or active; in particular an update for a group whose
    stored trial has ended adds nothing and leaves that row expired, and a
    pending or expired row adds nothing. *)
Theorem track_message_gated (day_of : Z -> string) (hour_of : Z -> Z) :
  (forall now upd d,
     activity (track_message day_of hour_of now upd d) = activity d \/
     exists msg c, up_message upd = Some msg /\ up_chat upd = Some c /\
       is_group_chat c = true /\ status_permits (fst (evaluated_status now c d)) = true) /\
  (forall now upd msg c d g te,
     up_message upd = Some msg -> up_chat upd = Some c -> is_group_chat c = true ->
     select_group (c_id c) (groups d) = Some g -> g_status g = "trial" ->
     g_trial_end_date g = Some te -> te < now ->
     activity (track_message day_of hour_of now upd d) = activity d /\
     exists g', select_group (c_id c) (groups (track_message day_of hour_of now upd d)) = Some g'
                /\ g_status g' = "expired") /\
  (forall now upd msg c d g,
     up_message upd = Some msg -> up_chat upd = Some c ->
     select_group (c_id c) (groups d) = Some g ->
     g_status g = "pending" \/ g_status g = "expired" ->
     activity (track_message day_of hour_of now upd d) = activity d).
Proof.
  split; [|split].
  - intros now upd d.
    destruct (up_message upd) as [msg|] eqn:Hm;
      [|left; unfold track_message; rewrite Hm; reflexivity].
    destruct (up_chat upd) as [c|] eqn:Hc;
      [|left; unfold track_message; rewrite Hm, Hc; reflexivity].
    destruct (is_group_chat c) eqn:Hg;
      [|left; unfold track_message; rewrite Hm, Hc, Hg; reflexivity].
    destruct (status_permits (fst (evaluated_status now c d))) eqn:Hp.
    + right. exists msg, c. repeat split; assumption.
    + left. rewrite (track_message_unfold day_of hour_of now upd msg c d Hm Hc Hg).
      pose proof (evaluated_status_activity now c d) as Ha.
      destruct (evaluated_status now c d) as [st d2]. simpl in Hp, Ha |- *.
      rewrite Hp. exact Ha.
  - intros now upd msg c d g te Hm Hc Hg Hs Hst Hte Hlt.
    rewrite (track_message_unfold day_of hour_of now upd msg c d Hm Hc Hg).
    unfold evaluated_status.
    rewrite (register_existing now (c_id c) (c_title c) d g Hs). simpl snd.
    rewrite (expire_trial now (c_id c) d g te Hs Hst Hte Hlt). simpl.
    split; [reflexivity|].
    exact (select_after_status_update (c_id c) "expired" d g Hs).
  - intros now upd msg c d g Hm Hc Hs Hst.
    destruct (is_group_chat c) eqn:Hg;
      [|unfold track_message; rewrite Hm, Hc, Hg; reflexivity].
    rewrite (track_message_unfold day_of hour_of now upd msg c d Hm Hc Hg).
    unfold evaluated_status.
    rewrite (register_existing now (c_id c) (c_title c) d g Hs). simpl snd.
    unfold get_group_status. rewrite Hs.
    destruct Hst as [Hst|Hst]; rewrite Hst; reflexivity.
Qed.


Lemma track_message_gated_witness :
  up_message sample_update = Some (mk_message "hello" false false false false false) /\
  up_chat sample_update = Some sample_chat /\ is_group_chat sample_chat = true /\
  select_group (-100) (groups expired_trial_db)
    = Some (mk_group (-100) (Some "Felix") "trial" (Some 10) None 0) /\ 10 < 20 /\
  activity (track_message (fun _ => "2026-10-19") (fun _ => 12) 20 sample_update expired_trial_db)
    = activity expired_trial_db /\
  exists g', select_group (-100) (groups (track_message (fun _ => "2026-10-19") (fun _ => 12)
                                            20 sample_update expired_trial_db)) = Some g'
             /\ g_status g' = "expired".
Proof.
  split; [reflexivity|]. split; [reflexivity|]. split; [reflexivity|].
  split; [reflexivity|]. split; [lia|].
  apply (proj1 (proj2 (track_message_gated (fun _ => "2026-10-19") (fun _ => 12)))
           20 sample_update (mk_message "hello" false false false false false) sample_chat
           expired_trial_db (mk_group (-100) (Some "Felix") "trial" (Some 10) None 0) 10);
    try reflexivity; lia.
Defined.

Lemma filter_empty_stronger {A} (f g : A -> bool) (l : list A) :
  filter f l = [] -> (forall x, g x = true -> f x = true) -> filter g l = [].
Proof.
  intros Hf Hgf. induction l as [|x l IH]; simpl in *; [reflexivity|].
  destruct (g x) eqn:Hg.
  - rewrite (Hgf x Hg) in Hf. discriminate.
  - destruct (f x); [discriminate|exact (IH Hf)].
Qed.

(** C4: with no activity row for the chat, [get_overall_stats] returns all
    counts 0 and [avg_per_user = 0]; and for every database the division
    [total_messages / unique_users] is guarded, so the [except] branch is
    never taken. *)
Theorem overall_stats_zero_guarded (day_of : Z -> string) (now chat_id : Z) (d : db) :
  (filter (fun r => Z.eqb (a_chat_id r) chat_id) (activity d) = [] ->
   get_overall_stats day_of now chat_id d = Some (mk_stats 0 0 0 0 0 (PyInt 0))) /\
  get_overall_stats day_of now chat_id d <> None.
Proof.
  split.
  - intro H0. unfold get_overall_stats, count_rows, cutoff_date.
    rewrite H0.
    rewrite (filter_empty_stronger _
               (fun r => Z.eqb (a_chat_id r) chat_id && String.eqb (a_date r) (day_of now))
               _ H0) by (intros x Hx; apply andb_true_iff in Hx; tauto).
    rewrite (filter_empty_stronger _
               (in_window chat_id (day_of (now - 7 * microseconds_per_day)))
               _ H0) by (intros x Hx; unfold in_window in Hx; apply andb_true_iff in Hx; tauto).
    reflexivity.
  - unfold get_overall_stats.
    destruct (Z.ltb 0 _) eqn:Hlt; [|discriminate].
    unfold py_true_div. apply Z.ltb_lt in Hlt.
    destruct (Z.eqb_spec (count_distinct_users
                (filter (fun r => Z.eqb (a_chat_id r) chat_id) (activity d))) 0); [lia|].
    destruct (Z.eqb _ 0); discriminate.
Qed.

Lemma overall_stats_zero_guarded_witness :
  filter (fun r => Z.eqb (a_chat_id r) (-100)) (activity sample_db) = [] /\
  get_overall_stats (fun _ => "2026-10-19") sample_now (-100) sample_db
    = Some (mk_stats 0 0 0 0 0 (PyInt 0)).
Proof.
  split; [reflexivity|].
  apply (proj1 (overall_stats_zero_guarded (fun _ => "2026-10-19") sample_now (-100) sample_db)).
  reflexivity.
Defined.

Lemma parse_header_prefix (rest : string) :
  parse_header (csv_row csv_header ++ rest) = csv_header.
Proof. reflexivity. Qed.

Lemma export_query_empty (cutoff : string) (chat_id : Z) (d : db) :
  filter (in_window chat_id cutoff) (activity d) = [] -> export_query cutoff chat_id d = [].
Proof. intro H. unfold export_query. rewrite H. reflexivity. Qed.

Lemma cutoff_instant_in_range (now days : Z) :
  0 <= days -> now <= datetime_max -> datetime_min <= now - days * microseconds_per_day ->
  cutoff_instant now days <> None.
Proof.
  intros H0 Hmax Hmin. unfold cutoff_instant, add_timedelta, timedelta_ok.
  replace (- (days * microseconds_per_day)) with (- days * microseconds_per_day) by ring.
  rewrite Z.div_mul by (unfold microseconds_per_day, microseconds_per_hour; lia).
  unfold datetime_max, datetime_min, timedelta_max_days, microseconds_per_day,
    microseconds_per_hour in *.
  repeat match goal with |- context [Z.leb ?a ?b] => destruct (Z.leb_spec a b) end;
    cbn; try discriminate; intro; lia.
Qed.

(** C5 (as amended): when the start of the window [now - days] is a valid
    datetime (for instance every window of 0 to 90 days read at an instant
    after the first 90 days of year 1), [export_to_csv] returns text that
    starts with the header row, reading its first record gives the
    documented column names in order, and with no matching event the text
    is the header row alone; when the start lies before year 1 the
    [OverflowError] is caught and [None] returned. *)
Theorem export_to_csv_header (day_of : Z -> string) (now chat_id days : Z) (d : db) :
  (0 <= days -> now <= datetime_max -> datetime_min <= now - days * microseconds_per_day ->
   cutoff_instant now days <> None) /\
  (cutoff_instant now days <> None ->
   exists rest,
     export_to_csv day_of now chat_id days d = Some (csv_row csv_header ++ rest) /\
     parse_header (csv_row csv_header ++ rest)
       = ["User ID"; "Username"; "First Name"; "Total Messages";
          "First Activity"; "Last Activity"] /\
     (filter (in_window chat_id (cutoff_date day_of now days)) (activity d) = [] ->
      rest = EmptyString)) /\
  (cutoff_instant now days = None -> export_to_csv day_of now chat_id days d = None).
Proof.
  split; [apply cutoff_instant_in_range|].
  unfold export_to_csv. split.
  - intro Hok. destruct (cutoff_instant now days); [|contradiction Hok; reflexivity].
    eexists. split; [reflexivity|]. split; [apply parse_header_prefix|].
    intro H. rewrite (export_query_empty _ _ _ H). reflexivity.
  - intro Hn. rewrite Hn. reflexivity.
Qed.

Lemma export_to_csv_header_witness :
  cutoff_instant sample_now 30 <> None /\
  filter (in_window (-100) (cutoff_date (fun _ => "2026-10-19") sample_now 30)) (activity sample_db) = [] /\
  exists rest,
    export_to_csv (fun _ => "2026-10-19") sample_now (-100) 30 sample_db
      = Some (csv_row csv_header ++ rest) /\
    parse_header (csv_row csv_header ++ rest)
      = ["User ID"; "Username"; "First Name"; "Total Messages";
         "First Activity"; "Last Activity"] /\
    (filter (in_window (-100) (cutoff_date (fun _ => "2026-10-19") sample_now 30))
       (activity sample_db) = [] ->
     rest = EmptyString).
Proof.
  split; [discriminate|]. split; [reflexivity|].
  apply (proj1 (proj2 (export_to_csv_header (fun _ => "2026-10-19") sample_now (-100) 30 sample_db))).
  discriminate.
Defined.

(** C5, as first stated, fails: a window of [10 ** 6] days starts before
    year 1, [datetime.now() - timedelta(days=days)] raises [OverflowError],
    and [export_to_csv] returns [None], not a text with the header. *)
Lemma export_to_csv_header_overflow :
  ~ (forall day_of now chat_id days d,
       exists rest, export_to_csv day_of now chat_id days d = Some (csv_row csv_header ++ rest)).
Proof.
  intro H.
  destruct (H (fun _ => "2026-10-19") sample_now (-100) (10 ^ 6) sample_db) as [rest Hr].
  vm_compute in Hr. discriminate.
Qed.

(** C8: the code misses the bound it means to enforce.  [str.isdigit]
    accepts the superscript digits of "365" (U+00B3 U+2076 U+2075), which
    [int] refuses with a [ValueError]: [/leaderboard] and [/export_data] with
    that argument raise out of the handler instead of clamping the window,
    while the same request in ASCII digits is clamped to 30 days. *)
Theorem command_window_superscript_raises :
  isdigit superscript_365 = true /\ py_int superscript_365 = None /\
  leaderboard_days [superscript_365] = None /\ export_days [superscript_365] = None /\
  leaderboard_days ["365"] = Some 30 /\
  fst (leaderboard_command (fun _ => "2026-10-19") sample_now sample_chat [superscript_365]
         live_trial_db) = LbRaised /\
  fst (export_data_command (fun _ => "2026-10-19") sample_now 7 [] sample_chat sample_user
         [superscript_365] live_trial_db) = ExRaised.
Proof. repeat split; vm_compute; reflexivity. Qed.

(** ** Lemmas on the leaderboard query *)


Lemma ucount_snoc (u : Z) (rows : list activity_row) (r : activity_row) :
  ucount u (rows ++ [r])%list = (ucount u rows + if Z.eqb (a_user_id r) u then 1 else 0)%nat.
Proof.
  unfold ucount. rewrite filter_app, length_app. simpl.
  destruct (Z.eqb (a_user_id r) u); reflexivity.
Qed.

Lemma bump_keys (r : activity_row) (acc : list (Z * string * Z)) :
  map ckey (bump_contributor r acc) =
  if existsb (Z.eqb (a_user_id r)) (map ckey acc) then map ckey acc
  else (map ckey acc ++ [a_user_id r])%list.
Proof.
  induction acc as [|[[u n] c] acc IH]; [reflexivity|].
  simpl. rewrite (Z.eqb_sym (a_user_id r) u).
  destruct (Z.eqb u (a_user_id r)); simpl; [reflexivity|].
  rewrite IH. destruct (existsb (Z.eqb (a_user_id r)) (map ckey acc)); reflexivity.
Qed.

Lemma existsb_eqb_In (k : Z) (l : list Z) : existsb (Z.eqb k) l = true <-> In k l.
Proof.
  rewrite existsb_exists. split.
  - intros [x [Hx He]]. apply Z.eqb_eq in He. subst. exact Hx.
  - intro H. exists k. split; [exact H|apply Z.eqb_refl].
Qed.

Lemma bump_entries (r : activity_row) (acc : list (Z * string * Z)) u n c :
  NoDup (map ckey acc) -> In (u, n, c) (bump_contributor r acc) ->
  (u = a_user_id r /\ (In (u, n, c - 1) acc \/ (~ In u (map ckey acc) /\ c = 1))) \/
  (u <> a_user_id r /\ In (u, n, c) acc).
Proof.
  induction acc as [|[[u0 n0] c0] acc IH]; simpl.
  - intros _ [E|[]]. injection E as <- <- <-. left. split; [reflexivity|right; tauto].
  - intros Hnd. apply NoDup_cons_iff in Hnd as [Hnin Hnd].
    destruct (Z.eqb_spec u0 (a_user_id r)) as [Heq|Hne].
    + intros [E|Hin].
      * injection E as <- <- <-. left. split; [exact Heq|]. left. left.
        f_equal. f_equal. lia.
      * right. split; [|right; exact Hin].
        intro Hu. subst u. apply Hnin. rewrite Heq.
        apply (in_map ckey) in Hin. exact Hin.
    + intros [E|Hin].
      * injection E as <- <- <-. right. split; [exact Hne|left; reflexivity].
      * destruct (IH Hnd Hin) as [[Hu [Hold|[Hnew Hc]]]|[Hu Hold]].
        -- left. split; [exact Hu|left; right; exact Hold].
        -- left. split; [exact Hu|right; split; [|exact Hc]].
           intros [E|E]; [congruence|contradiction].
        -- right. split; [exact Hu|right; exact Hold].
Qed.


Lemma group_inv_step (rows : list activity_row) (acc : list (Z * string * Z)) (r : activity_row) :
  group_inv rows acc -> group_inv (rows ++ [r])%list (bump_contributor r acc).
Proof.
  intros [Hnd [Hc Habs]].
  pose proof (bump_keys r acc) as Hk.
  destruct (existsb (Z.eqb (a_user_id r)) (map ckey acc)) eqn:He.
  - apply existsb_eqb_In in He.
    split; [|split].
    + rewrite Hk. exact Hnd.
    + intros u n c Hin. rewrite ucount_snoc.
      destruct (bump_entries r acc u n c Hnd Hin) as [[Hu [Hold|[Hnew _]]]|[Hu Hold]].
      * subst u. rewrite Z.eqb_refl. pose proof (Hc _ _ _ Hold). lia.
      * subst u. contradiction.
      * rewrite (Hc _ _ _ Hold). destruct (Z.eqb_spec (a_user_id r) u); [congruence|lia].
    + intros u Hu. rewrite Hk in Hu. rewrite ucount_snoc, (Habs u Hu).
      destruct (Z.eqb_spec (a_user_id r) u); [subst; contradiction|reflexivity].
  - assert (Hnot : ~ In (a_user_id r) (map ckey acc)).
    { intro H. apply existsb_eqb_In in H. congruence. }
    split; [|split].
    + rewrite Hk. apply NoDup_app; [exact Hnd|constructor; [intros []|constructor]|].
      intros a Ha [E|[]]. subst a. contradiction.
    + intros u n c Hin. rewrite ucount_snoc.
      destruct (bump_entries r acc u n c Hnd Hin) as [[Hu [Hold|[Hnew Hc1]]]|[Hu Hold]].
      * subst u. exfalso. apply Hnot. apply (in_map ckey) in Hold. exact Hold.
      * subst u. rewrite Z.eqb_refl, (Habs _ Hnew). lia.
      * rewrite (Hc _ _ _ Hold). destruct (Z.eqb_spec (a_user_id r) u); [congruence|lia].
    + intros u Hu. rewrite Hk in Hu.
      assert (Hu1 : ~ In u (map ckey acc)) by (intro; apply Hu; apply in_or_app; left; assumption).
      rewrite ucount_snoc, (Habs u Hu1).
      destruct (Z.eqb_spec (a_user_id r) u); [|reflexivity].
      exfalso. apply Hu. apply in_or_app. right. left. assumption.
Qed.

Lemma group_by_user_inv (rows : list activity_row) : group_inv rows (group_by_user rows).
Proof.
  induction rows as [|r rows IH] using rev_ind.
  - split; [constructor|split].
    + intros u n c [].
    + intros u _. reflexivity.
  - unfold group_by_user in *. rewrite fold_left_app. simpl.
    apply group_inv_step. exact IH.
Qed.

Section SortDesc.

Context {A : Type} (key : A -> Z).

Lemma insert_desc_In (x y : A) (l : list A) : In y (insert_desc key x l) -> y = x \/ In y l.
Proof.
  induction l as [|z l IH]; simpl.
  - intros [E|[]]. left. symmetry. exact E.
  - destruct (Z.leb (key z) (key x)); simpl.
    + intros [E|[E|H]]; [left; symmetry; exact E|right; left; exact E|right; right; exact H].
    + intros [E|H]; [right; left; exact E|]. destruct (IH H); [left|right; right]; assumption.
Qed.

Lemma sort_desc_In (y : A) (l : list A) : In y (sort_desc key l) -> In y l.
Proof.
  induction l as [|x l IH]; simpl; [intros []|].
  intro H. destruct (insert_desc_In x y _ H) as [E|H']; [left; symmetry; exact E|right; exact (IH H')].
Qed.

Lemma insert_desc_HdRel (x y : A) (l : list A) :
  HdRel (desc key) y l -> key x <= key y -> HdRel (desc key) y (insert_desc key x l).
Proof.
  intros Hh Hxy. destruct l as [|z l]; simpl.
  - constructor. exact Hxy.
  - destruct (Z.leb (key z) (key x)); constructor; [exact Hxy|].
    inversion Hh. assumption.
Qed.

Lemma insert_desc_sorted (x : A) (l : list A) :
  Sorted (desc key) l -> Sorted (desc key) (insert_desc key x l).
Proof.
  induction l as [|z l IH]; simpl; intro Hs.
  - repeat constructor.
  - destruct (Z.leb (key z) (key x)) eqn:Hlt.
    + apply Z.leb_le in Hlt. constructor; [exact Hs|constructor; unfold desc; lia].
    + apply Z.leb_gt in Hlt. apply Sorted_inv in Hs as [Hs Hh].
      constructor; [exact (IH Hs)|]. apply insert_desc_HdRel; [exact Hh|lia].
Qed.

Lemma sort_desc_sorted (l : list A) : Sorted (desc key) (sort_desc key l).
Proof.
  induction l as [|x l IH]; simpl; [constructor|]. apply insert_desc_sorted. exact IH.
Qed.

Lemma firstn_sorted (n : nat) (l : list A) : Sorted (desc key) l -> Sorted (desc key) (firstn n l).
Proof.
  revert l. induction n as [|n IH]; intros l Hs; [constructor|].
  destruct l as [|x l]; [constructor|]. simpl.
  apply Sorted_inv in Hs as [Hs Hh]. constructor; [exact (IH l Hs)|].
  destruct n; [constructor|]. destruct l as [|y l]; [constructor|].
  simpl. constructor. inversion Hh. assumption.
Qed.

End SortDesc.

Lemma firstn_In_incl {A} (n : nat) (l : list A) (x : A) : In x (firstn n l) -> In x l.
Proof.
  intro H. rewrite <- (firstn_skipn n l). apply in_or_app. left. exact H.
Qed.

Lemma filter_filter_andb {A} (f g : A -> bool) (l : list A) :
  filter g (filter f l) = filter (fun x => f x && g x) l.
Proof.
  induction l as [|x l IH]; simpl; [reflexivity|].
  destruct (f x); simpl; [destruct (g x)|]; rewrite IH; reflexivity.
Qed.


Lemma top_contributors_at_props (cutoff : string) (chat_id limit : Z) (d : db) :
  0 <= limit ->
  let res := get_top_contributors_at cutoff chat_id limit d in
  Z.of_nat (List.length res) <= limit /\ Sorted (desc contributor_count) res /\
  (forall u n c, In (u, n, c) res -> c = user_events_in_window cutoff chat_id u d).
Proof.
  intros H0 res.
  set (rows := filter (in_window chat_id cutoff) (activity d)).
  assert (Hres : res = firstn (Z.to_nat limit) (sort_desc contributor_count (group_by_user rows))).
  { unfold res, get_top_contributors_at, sql_limit.
    destruct (Z.ltb_spec limit 0); [lia|reflexivity]. }
  split; [|split].
  - rewrite Hres.
    pose proof (firstn_le_length (Z.to_nat limit) (sort_desc contributor_count (group_by_user rows))).
    lia.
  - rewrite Hres. apply firstn_sorted, sort_desc_sorted.
  - intros u n c Hin. rewrite Hres in Hin.
    apply firstn_In_incl, (sort_desc_In contributor_count) in Hin.
    destruct (group_by_user_inv rows) as [_ [Hc _]].
    rewrite (Hc u n c Hin). unfold ucount, user_events_in_window, rows.
    rewrite filter_filter_andb. reflexivity.
Qed.

(** C3: for a non-negative [limit], [get_top_contributors] returns at most
    [limit] entries, ordered by count descending, and every count is the
    number of events of that user in the chat within the window (a window
    reaching before year 1 makes the query fail and return no entry). *)
Theorem top_contributors_bounded (day_of : Z -> string) (now chat_id days limit : Z) (d : db) :
  0 <= limit ->
  let cutoff := cutoff_date day_of now days in
  let res := get_top_contributors day_of now chat_id days limit d in
  Z.of_nat (List.length res) <= limit /\
  Sorted (desc contributor_count) res /\
  (forall u n c, In (u, n, c) res -> c = user_events_in_window cutoff chat_id u d).
Proof.
  intros H0 cutoff res. unfold res, get_top_contributors.
  destruct (cutoff_instant now days).
  - exact (top_contributors_at_props cutoff chat_id limit d H0).
  - split; [simpl; exact H0|split; [constructor|intros u n c []]].
Qed.

Lemma top_contributors_bounded_witness :
  0 <= 10 /\
  let cutoff := cutoff_date (fun _ => "2026-10-19") sample_now 7 in
  let res := get_top_contributors (fun _ => "2026-10-19") sample_now (-100) 7 10 two_user_db in
  Z.of_nat (List.length res) <= 10 /\
  Sorted (desc contributor_count) res /\
  (forall u n c, In (u, n, c) res -> c = user_events_in_window cutoff (-100) u two_user_db).
Proof.
  split; [lia|].
  apply (top_contributors_bounded (fun _ => "2026-10-19") sample_now (-100) 7 10 two_user_db).
  lia.
Defined.

(** * Further properties of the code *)

(** ** Group admins *)

Lemma count_admins_app (chat_id user_id : Z) (l1 l2 : list admin_row) :
  count_admins chat_id user_id (l1 ++ l2)%list
  = (count_admins chat_id user_id l1 + count_admins chat_id user_id l2)%nat.
Proof. unfold count_admins. rewrite filter_app, length_app. reflexivity. Qed.

Lemma count_admins_after_add (now chat_id user_id : Z) (admins : list admin_row) :
  (0 < count_admins chat_id user_id (snd (add_group_admin now chat_id user_id admins)))%nat.
Proof.
  unfold add_group_admin.
  destruct (Nat.ltb_spec 0 (count_admins chat_id user_id admins)); simpl; [assumption|].
  rewrite count_admins_app. unfold count_admins, admin_match. simpl.
  rewrite !Z.eqb_refl. simpl. lia.
Qed.

Lemma count_admins_other_add (now chat_id user_id c u : Z) (admins : list admin_row) :
  (c, u) <> (chat_id, user_id) ->
  count_admins c u (snd (add_group_admin now chat_id user_id admins)) = count_admins c u admins.
Proof.
  intro Hne. unfold add_group_admin.
  destruct (Nat.ltb 0 (count_admins chat_id user_id admins)); simpl; [reflexivity|].
  rewrite count_admins_app. unfold count_admins, admin_match. simpl.
  destruct (Z.eqb_spec chat_id c), (Z.eqb_spec user_id u); subst; simpl;
    try (rewrite Nat.add_0_r; reflexivity).
  congruence.
Qed.

(** X1: [add_group_admin] is idempotent; afterwards the user is an admin of
    that group, and the admin rights of the user in any other group are
    unchanged (group admin rights are scoped to one chat). *)
Theorem add_group_admin_idempotent_scoped (super_admin_id now1 now2 chat_id user_id : Z)
    (admins : list admin_row) :
  let admins1 := snd (add_group_admin now1 chat_id user_id admins) in
  snd (add_group_admin now2 chat_id user_id admins1) = admins1 /\
  is_group_admin super_admin_id chat_id user_id admins1 = true /\
  (forall c, c <> chat_id ->
     is_group_admin super_admin_id c user_id admins1
     = is_group_admin super_admin_id c user_id admins).
Proof.
  intro admins1. split; [|split].
  - unfold add_group_admin at 1.
    pose proof (count_admins_after_add now1 chat_id user_id admins) as H.
    apply Nat.ltb_lt in H. fold admins1 in H. rewrite H. reflexivity.
  - unfold is_group_admin. destruct (is_super_admin super_admin_id user_id); [reflexivity|].
    apply Nat.ltb_lt. apply count_admins_after_add.
  - intros c Hc. unfold is_group_admin. destruct (is_super_admin super_admin_id user_id); [reflexivity|].
    unfold admins1. rewrite count_admins_other_add; [reflexivity|congruence].
Qed.

Lemma add_group_admin_idempotent_scoped_witness :
  (-200) <> (-100) /\
  is_group_admin 1 (-200) 42 (snd (add_group_admin 0 (-100) 42 [])) = is_group_admin 1 (-200) 42 [].
Proof.
  split; [lia|].
  apply (proj2 (proj2 (add_group_admin_idempotent_scoped 1 0 5 (-100) 42 []))). lia.
Defined.

(** X2: [add_group_admin] keeps [UNIQUE(chat_id, user_id)]: a table with at
    most one row per pair still has at most one after the insert. *)
Theorem add_group_admin_unique (now chat_id user_id : Z) (admins : list admin_row) :
  (forall c u, (count_admins c u admins <= 1)%nat) ->
  forall c u, (count_admins c u (snd (add_group_admin now chat_id user_id admins)) <= 1)%nat.
Proof.
  intros Hu c u.
  destruct (Z.eqb_spec c chat_id) as [->|Hc]; [destruct (Z.eqb_spec u user_id) as [->|Hu']|].
  - unfold add_group_admin.
    destruct (Nat.ltb_spec 0 (count_admins chat_id user_id admins)) as [H|H]; simpl; [apply Hu|].
    rewrite count_admins_app. unfold count_admins, admin_match in *. simpl.
    rewrite !Z.eqb_refl. simpl. lia.
  - rewrite count_admins_other_add by congruence. apply Hu.
  - rewrite count_admins_other_add by congruence. apply Hu.
Qed.

Lemma add_group_admin_unique_witness :
  (forall c u, (count_admins c u [mk_admin (-100) 7 "admin" 0] <= 1)%nat) /\
  (count_admins (-100) 7 (snd (add_group_admin 5 (-100) 7 [mk_admin (-100) 7 "admin" 0])) <= 1)%nat.
Proof.
  assert (H : forall c u, (count_admins c u [mk_admin (-100) 7 "admin" 0] <= 1)%nat)
    by (intros c u; unfold count_admins; cbn [filter];
        destruct (admin_match c u (mk_admin (-100) 7 "admin" 0)); simpl; lia).
  split; [exact H|]. apply (add_group_admin_unique 5 (-100) 7 [mk_admin (-100) 7 "admin" 0] H).
Defined.

(** ** Lifecycle compositions *)

Lemma get_status_plain (now chat_id : Z) (d : db) (g : group_row) :
  select_group chat_id (groups d) = Some g ->
  String.eqb (g_status g) "trial" = false -> String.eqb (g_status g) "active" = false ->
  get_group_status now chat_id d = (Some (g_status g), d).
Proof.
  intros Hs Ht Ha. unfold get_group_status. rewrite Hs, Ht, Ha. reflexivity.
Qed.

Lemma get_status_trial_live (now chat_id : Z) (d : db) (g : group_row) :
  select_group chat_id (groups d) = Some g -> g_status g = "trial" ->
  (forall te, g_trial_end_date g = Some te -> now <= te) ->
  get_group_status now chat_id d = (Some "trial", d).
Proof.
  intros Hs Hst Hte. unfold get_group_status. rewrite Hs, Hst. cbn - [update_group_status].
  destruct (g_trial_end_date g) as [te|]; [|reflexivity].
  specialize (Hte te eq_refl). destruct (Z.ltb_spec te now); [lia|reflexivity].
Qed.

Lemma get_status_active_live (now chat_id : Z) (d : db) (g : group_row) :
  select_group chat_id (groups d) = Some g -> g_status g = "active" ->
  (forall se, g_subscription_end_date g = Some se -> now <= se) ->
  get_group_status now chat_id d = (Some "active", d).
Proof.
  intros Hs Hst Hse. unfold get_group_status. rewrite Hs, Hst. cbn - [update_group_status].
  destruct (g_subscription_end_date g) as [se|]; [|reflexivity].
  specialize (Hse se eq_refl). destruct (Z.ltb_spec se now); [lia|reflexivity].
Qed.

Lemma select_after_update_status (chat_id : Z) (status : string) (d : db) (g : group_row) :
  select_group chat_id (groups d) = Some g ->
  select_group chat_id (groups (snd (update_group_status chat_id status d)))
  = Some (mk_group (g_chat_id g) (g_group_name g) status (g_trial_end_date g)
                   (g_subscription_end_date g) (g_added_date g)).
Proof.
  intro Hs.
  exact (select_update_groups chat_id
           (fun g => mk_group (g_chat_id g) (g_group_name g) status (g_trial_end_date g)
                              (g_subscription_end_date g) (g_added_date g))
           (groups d) g (fun _ => eq_refl) Hs).
Qed.

(** X3: the lifecycle commands followed by an evaluation.  Up to its
    deadline [te = now0 + timedelta(...)], a group approved for a trial
    evaluates to trial and a group whose subscription was extended
    evaluates to active, and neither evaluation writes; when the deadline
    overflows, approve and extend write nothing; a revoked group evaluates
    to expired at any time, without a write. *)
Theorem lifecycle_then_evaluate (now0 now1 chat_id hours days : Z) (d : db) :
  select_group chat_id (groups d) <> None ->
  (forall te, add_timedelta now0 (hours * microseconds_per_hour) = Some te -> now1 <= te ->
   let d1 := snd (approve_group_trial now0 chat_id hours d) in
   get_group_status now1 chat_id d1 = (Some "trial", d1)) /\
  (add_timedelta now0 (hours * microseconds_per_hour) = None ->
   snd (approve_group_trial now0 chat_id hours d) = d) /\
  (forall se, add_timedelta now0 (days * microseconds_per_day) = Some se -> now1 <= se ->
   let d1 := snd (extend_subscription now0 chat_id days d) in
   get_group_status now1 chat_id d1 = (Some "active", d1)) /\
  (add_timedelta now0 (days * microseconds_per_day) = None ->
   snd (extend_subscription now0 chat_id days d) = d) /\
  (let d1 := snd (update_group_status chat_id "expired" d) in
   get_group_status now1 chat_id d1 = (Some "expired", d1)).
Proof.
  intro Hex. destruct (select_group chat_id (groups d)) as [g|] eqn:Hs; [|contradiction].
  split; [|split; [|split; [|split]]].
  - intros te Hte Hle d1. unfold d1, approve_group_trial. rewrite Hte. cbn [snd].
    apply (get_status_trial_live now1 chat_id _
             (mk_group (g_chat_id g) (g_group_name g) "trial" (Some te)
                       (g_subscription_end_date g) (g_added_date g))).
    + exact (select_update_groups chat_id
               (fun g => mk_group (g_chat_id g) (g_group_name g) "trial" (Some te)
                                  (g_subscription_end_date g) (g_added_date g))
               (groups d) g (fun _ => eq_refl) Hs).
    + reflexivity.
    + simpl. intros te' E. injection E as <-. exact Hle.
  - intro Hn. rewrite approve_overflow by exact Hn. reflexivity.
  - intros se Hse Hle d1. unfold d1, extend_subscription. rewrite Hse. cbn [snd].
    apply (get_status_active_live now1 chat_id _
             (mk_group (g_chat_id g) (g_group_name g) "active" (g_trial_end_date g)
                       (Some se) (g_added_date g))).
    + exact (select_update_groups chat_id
               (fun g => mk_group (g_chat_id g) (g_group_name g) "active" (g_trial_end_date g)
                                  (Some se) (g_added_date g))
               (groups d) g (fun _ => eq_refl) Hs).
    + reflexivity.
    + simpl. intros se' E. injection E as <-. exact Hle.
  - intro Hn. rewrite extend_overflow by exact Hn. reflexivity.
  - intro d1. apply (get_status_plain now1 chat_id d1 _ (select_after_update_status _ _ _ _ Hs));
      reflexivity.
Qed.

Lemma lifecycle_then_evaluate_witness :
  select_group (-100) (groups sample_db) <> None /\
  add_timedelta sample_now (48 * microseconds_per_hour)
    = Some (sample_now + 48 * microseconds_per_hour) /\
  sample_now + 10 <= sample_now + 48 * microseconds_per_hour /\
  let d1 := snd (approve_group_trial sample_now (-100) 48 sample_db) in
  get_group_status (sample_now + 10) (-100) d1 = (Some "trial", d1).
Proof.
  split; [discriminate|]. split; [reflexivity|]. split; [unfold microseconds_per_hour; lia|].
  apply (proj1 (lifecycle_then_evaluate sample_now (sample_now + 10) (-100) 48 30 sample_db
                  ltac:(discriminate)) (sample_now + 48 * microseconds_per_hour));
    [reflexivity|unfold microseconds_per_hour; lia].
Defined.

Lemma get_group_status_cases (now chat_id : Z) (d : db) :
  (select_group chat_id (groups d) = None /\ get_group_status now chat_id d = (None, d)) \/
  (exists g, select_group chat_id (groups d) = Some g /\
     get_group_status now chat_id d = (Some "expired", snd (update_group_status chat_id "expired" d))) \/
  (exists g, select_group chat_id (groups d) = Some g /\
     get_group_status now chat_id d = (Some (g_status g), d)).
Proof.
  destruct (select_group chat_id (groups d)) as [g|] eqn:Hs;
    [|left; split; [reflexivity|unfold get_group_status; rewrite Hs; reflexivity]].
  right. unfold get_group_status. rewrite Hs.
  destruct (String.eqb_spec (g_status g) "trial") as [Ht|Ht].
  - rewrite Ht. cbn - [update_group_status].
    destruct (g_trial_end_date g) as [te|]; [destruct (Z.ltb te now)|].
    + left. exists g. split; reflexivity.
    + right. exists g. split; [reflexivity|rewrite Ht; reflexivity].
    + right. exists g. split; [reflexivity|rewrite Ht; reflexivity].
  - destruct (String.eqb_spec (g_status g) "active") as [Ha|Ha].
    + rewrite Ha. cbn - [update_group_status].
      destruct (g_subscription_end_date g) as [se|]; [destruct (Z.ltb se now)|].
      * left. exists g. split; reflexivity.
      * right. exists g. split; [reflexivity|rewrite Ha; reflexivity].
      * right. exists g. split; [reflexivity|rewrite Ha; reflexivity].
    + right. exists g. split; [reflexivity|].
      reflexivity.
Qed.

(** X4: evaluation is stable.  [get_group_status] either leaves the
    database alone or only sets the group's status to expired; evaluating
    again at the same instant returns the same status and writes nothing;
    and once it has returned expired, every later evaluation, at any
    instant, returns expired without a write. *)
Theorem get_group_status_stable (now chat_id : Z) (d : db) :
  let '(status, d1) := get_group_status now chat_id d in
  (d1 = d \/ d1 = snd (update_group_status chat_id "expired" d)) /\
  get_group_status now chat_id d1 = (status, d1) /\
  (status = Some "expired" -> forall now', get_group_status now' chat_id d1 = (status, d1)).
Proof.
  destruct (get_group_status_cases now chat_id d) as [[Hs E]|[[g [Hs E]]|[g [Hs E]]]];
    rewrite E.
  - split; [left; reflexivity|]. split; [exact E|discriminate].
  - assert (Hexp : forall now',
      get_group_status now' chat_id (snd (update_group_status chat_id "expired" d))
      = (Some "expired", snd (update_group_status chat_id "expired" d)))
      by (intro; apply (get_status_plain _ _ _ _ (select_after_update_status _ _ _ _ Hs)); reflexivity).
    split; [right; reflexivity|]. split; [apply Hexp|]. intros _ now'. apply Hexp.
  - split; [left; reflexivity|]. split; [exact E|].
    intros Hx now'. injection Hx as Hx.
    apply (get_status_plain now' chat_id d g Hs); rewrite Hx; reflexivity.
Qed.

Lemma get_group_status_stable_witness :
  fst (get_group_status 20 (-100) expired_trial_db) = Some "expired" /\
  get_group_status 5 (-100) (snd (get_group_status 20 (-100) expired_trial_db))
  = (Some "expired", snd (get_group_status 20 (-100) expired_trial_db)).
Proof.
  split; [reflexivity|].
  pose proof (get_group_status_stable 20 (-100) expired_trial_db) as H.
  vm_compute in H. vm_compute.
  apply (proj2 (proj2 H) eq_refl 5).
Defined.

(** ** Message tracking *)

Lemma select_update_groups_exists (c c' : Z) (f : group_row -> group_row) (gs : list group_row) :
  (forall h, g_chat_id (f h) = g_chat_id h) ->
  select_group c gs <> None -> select_group c (update_groups c' f gs) <> None.
Proof.
  unfold select_group, update_groups. intro Hf.
  induction gs as [|h gs IH]; simpl; [tauto|].
  destruct (Z.eqb (g_chat_id h) c') eqn:Hc'.
  - simpl. rewrite Hf. destruct (Z.eqb (g_chat_id h) c); [discriminate|exact IH].
  - simpl. destruct (Z.eqb (g_chat_id h) c); [discriminate|exact IH].
Qed.

Lemma get_group_status_keeps_row (now c chat_id : Z) (d : db) :
  select_group c (groups d) <> None ->
  select_group c (groups (snd (get_group_status now chat_id d))) <> None.
Proof.
  intro H.
  destruct (get_group_status_cases now chat_id d) as [[_ E]|[[g [_ E]]|[g [_ E]]]];
    rewrite E; simpl; try exact H.
  apply select_update_groups_exists; [reflexivity|exact H].
Qed.

Lemma register_group_row (now chat_id : Z) (name : option string) (d : db) :
  select_group chat_id (groups (snd (register_group now chat_id name d))) <> None.
Proof.
  unfold register_group. destruct (select_group chat_id (groups d)) eqn:Hs.
  - cbn [snd]. rewrite Hs. discriminate.
  - cbn [snd groups].
    rewrite (select_group_app_new chat_id (groups d) (mk_group chat_id name "pending" None None now)
               Hs eq_refl).
    discriminate.
Qed.

(** X5: when the status [track_message] evaluates is trial or active, it
    appends exactly one activity row, carrying the chat, the sender, the
    instant, the classified message type and the local day and hour of the
    instant. *)
Theorem track_message_records_one (day_of : Z -> string) (hour_of : Z -> Z) (now : Z)
    (upd : update) (msg : message) (c : chat) (d : db) :
  up_message upd = Some msg -> up_chat upd = Some c -> is_group_chat c = true ->
  status_permits (fst (evaluated_status now c d)) = true ->
  activity (track_message day_of hour_of now upd d)
  = (activity d ++ [mk_activity (c_id c) (u_id (up_user upd)) (u_username (up_user upd))
                      (u_first_name (up_user upd)) now (message_type msg)
                      (day_of now) (hour_of now)])%list.
Proof.
  intros Hm Hc Hg Hp.
  rewrite (track_message_unfold day_of hour_of now upd msg c d Hm Hc Hg).
  pose proof (evaluated_status_activity now c d) as Ha.
  destruct (evaluated_status now c d) as [st d2]. simpl in Hp, Ha |- *.
  rewrite Hp. simpl. rewrite Ha. reflexivity.
Qed.

Lemma track_message_records_one_witness :
  up_message sample_update = Some (mk_message "hello" false false false false false) /\
  up_chat sample_update = Some sample_chat /\ is_group_chat sample_chat = true /\
  status_permits (fst (evaluated_status 20 sample_chat active_trial_db)) = true /\
  activity (track_message (fun _ => "2026-10-19") (fun _ => 12) 20 sample_update active_trial_db)
  = [mk_activity (-100) 7 (Some "felix") (Some "Felix") 20 "text" "2026-10-19" 12].
Proof.
  split; [reflexivity|]. split; [reflexivity|]. split; [reflexivity|]. split; [reflexivity|].
  apply (track_message_records_one (fun _ => "2026-10-19") (fun _ => 12) 20 sample_update
           (mk_message "hello" false false false false false) sample_chat active_trial_db);
    reflexivity.
Defined.

(** X6: [track_message] ignores an update without a message or chat, or from
    a private chat, leaving the database unchanged; for a group chat it
    always leaves a Group row for that chat, registering one if needed,
    whether or not the message is recorded. *)
Theorem track_message_scope (day_of : Z -> string) (hour_of : Z -> Z) (now : Z) (upd : update) (d : db) :
  ((up_message upd = None \/ up_chat upd = None \/
    exists c, up_chat upd = Some c /\ is_group_chat c = false) ->
   track_message day_of hour_of now upd d = d) /\
  (forall msg c, up_message upd = Some msg -> up_chat upd = Some c -> is_group_chat c = true ->
   select_group (c_id c) (groups (track_message day_of hour_of now upd d)) <> None).
Proof.
  split.
  - intros [Hm|[Hc|[c [Hc Hg]]]]; unfold track_message.
    + rewrite Hm. reflexivity.
    + destruct (up_message upd); [rewrite Hc|]; reflexivity.
    + destruct (up_message upd); [rewrite Hc, Hg|]; reflexivity.
  - intros msg c Hm Hc Hg.
    rewrite (track_message_unfold day_of hour_of now upd msg c d Hm Hc Hg).
    assert (Hrow : select_group (c_id c) (groups (snd (evaluated_status now c d))) <> None)
      by (apply get_group_status_keeps_row, register_group_row).
    destruct (evaluated_status now c d) as [st d2]. simpl in Hrow.
    destruct (negb (status_permits st)); exact Hrow.
Qed.

Lemma track_message_scope_witness :
  up_message sample_update = Some (mk_message "hello" false false false false false) /\
  up_chat sample_update = Some sample_chat /\ is_group_chat sample_chat = true /\
  select_group (-100) (groups (track_message (fun _ => "2026-10-19") (fun _ => 12) 20
                                sample_update (mk_db [] []))) <> None.
Proof.
  split; [reflexivity|]. split; [reflexivity|]. split; [reflexivity|].
  apply (proj2 (track_message_scope (fun _ => "2026-10-19") (fun _ => 12) 20 sample_update
                  (mk_db [] [])) (mk_message "hello" false false false false false) sample_chat);
    reflexivity.
Defined.

(** ** Restore *)

Lemma select_group_rows_of (c : Z) (gs : list group_row) :
  select_group c gs = hd_error (rows_of c gs).
Proof.
  unfold select_group, rows_of. induction gs as [|h gs IH]; simpl; [reflexivity|].
  destruct (Z.eqb (g_chat_id h) c); [reflexivity|exact IH].
Qed.

Lemma rows_of_insert_other (c : Z) (g : group_row) (gs : list group_row) :
  c <> g_chat_id g -> rows_of c (insert_or_replace g gs) = rows_of c gs.
Proof.
  intro Hne. unfold rows_of, insert_or_replace.
  rewrite filter_app, filter_filter_andb. simpl.
  destruct (Z.eqb_spec (g_chat_id g) c); [congruence|].
  rewrite app_nil_r. apply filter_ext. intro h.
  destruct (Z.eqb_spec (g_chat_id h) c), (Z.eqb_spec (g_chat_id h) (g_chat_id g));
    simpl; try reflexivity; congruence.
Qed.

Lemma rows_of_insert_same (g : group_row) (gs : list group_row) :
  rows_of (g_chat_id g) (insert_or_replace g gs) = [g].
Proof.
  unfold rows_of, insert_or_replace.
  rewrite filter_app, filter_filter_andb. simpl. rewrite Z.eqb_refl.
  induction gs as [|h gs IH]; simpl; [reflexivity|].
  destruct (Z.eqb (g_chat_id h) (g_chat_id g)); simpl; exact IH.
Qed.

Lemma restore_fold_other (c : Z) (records : list backup_record) (gs : list group_row) :
  ~ In c (map r_chat_id records) -> rows_of c (restore_fold records gs) = rows_of c gs.
Proof.
  revert gs. induction records as [|r rs IH]; intros gs Hn; [reflexivity|].
  simpl in Hn. unfold restore_fold. simpl. fold (restore_fold rs (insert_or_replace (group_of_record r) gs)).
  rewrite IH by tauto. apply rows_of_insert_other. simpl. intro E. apply Hn. left. symmetry. exact E.
Qed.

Lemma restore_fold_in (c : Z) (records : list backup_record) (gs : list group_row) :
  In c (map r_chat_id records) ->
  exists r, In r records /\ rows_of c (restore_fold records gs) = [group_of_record r].
Proof.
  revert gs. induction records as [|r rs IH]; intros gs Hin; [destruct Hin|].
  unfold restore_fold. simpl. fold (restore_fold rs (insert_or_replace (group_of_record r) gs)).
  destruct (in_dec Z.eq_dec c (map r_chat_id rs)) as [Hrs|Hrs].
  - destruct (IH (insert_or_replace (group_of_record r) gs) Hrs) as [r' [Hr' E]].
    exists r'. split; [right; exact Hr'|exact E].
  - destruct Hin as [E|Hin]; [|contradiction].
    exists r. split; [left; reflexivity|].
    rewrite restore_fold_other by exact Hrs. subst c. exact (rows_of_insert_same (group_of_record r) gs).
Qed.

Lemma restore_fold_nodup (records : list backup_record) (gs : list group_row) r :
  NoDup (map r_chat_id records) -> In r records ->
  rows_of (r_chat_id r) (restore_fold records gs) = [group_of_record r].
Proof.
  revert gs. induction records as [|r0 rs IH]; intros gs Hnd Hin; [destruct Hin|].
  simpl in Hnd. apply NoDup_cons_iff in Hnd as [Hn Hnd].
  unfold restore_fold. simpl. fold (restore_fold rs (insert_or_replace (group_of_record r0) gs)).
  destruct Hin as [<-|Hin].
  - rewrite restore_fold_other by exact Hn. exact (rows_of_insert_same (group_of_record r0) gs).
  - apply IH; assumption.
Qed.

(** X7: a restore from a non-empty sheet succeeds and upserts by chat_id:
    afterwards each chat_id of the sheet has exactly one Group row; when the
    sheet's chat_ids are distinct, that row is the sheet's record (the
    external store wins); the rows of every other chat and the activity
    table are left as they were. *)
Theorem restore_upserts (records : list backup_record) (d : db) :
  records <> [] ->
  let '(ok, _msg, d') := restore_from_sheets (Some records) d in
  ok = true /\ activity d' = activity d /\
  (forall r, In r records -> count_groups (r_chat_id r) (groups d') = 1%nat) /\
  (NoDup (map r_chat_id records) ->
   forall r, In r records -> select_group (r_chat_id r) (groups d') = Some (group_of_record r)) /\
  (forall c, ~ In c (map r_chat_id records) -> rows_of c (groups d') = rows_of c (groups d)).
Proof.
  intro Hne. destruct records as [|r0 rs]; [contradiction|].
  unfold restore_from_sheets. fold (restore_fold (r0 :: rs) (groups d)). simpl snd. simpl fst.
  split; [reflexivity|]. split; [reflexivity|]. cbn [groups]. split; [|split].
  - intros r Hr. unfold count_groups. fold (rows_of (r_chat_id r) (restore_fold (r0 :: rs) (groups d))).
    destruct (restore_fold_in (r_chat_id r) (r0 :: rs) (groups d) (in_map _ _ _ Hr)) as [r' [_ E]].
    rewrite E. reflexivity.
  - intros Hnd r Hr. rewrite select_group_rows_of, (restore_fold_nodup _ _ r Hnd Hr). reflexivity.
  - intros c Hc. apply restore_fold_other. exact Hc.
Qed.

Lemma restore_upserts_witness :
  sample_records <> [] /\
  let '(ok, _msg, d') := restore_from_sheets (Some sample_records) sample_db in
  ok = true /\ activity d' = activity sample_db /\
  (forall r, In r sample_records -> count_groups (r_chat_id r) (groups d') = 1%nat) /\
  (NoDup (map r_chat_id sample_records) ->
   forall r, In r sample_records -> select_group (r_chat_id r) (groups d') = Some (group_of_record r)) /\
  (forall c, ~ In c (map r_chat_id sample_records) -> rows_of c (groups d') = rows_of c (groups sample_db)).
Proof.
  split; [discriminate|]. apply (restore_upserts sample_records sample_db). discriminate.
Defined.

(** ** Peak hours *)

Lemma insert_desc_perm {A} (key : A -> Z) (x : A) (l : list A) :
  Permutation (insert_desc key x l) (x :: l).
Proof.
  induction l as [|y l IH]; simpl; [reflexivity|].
  destruct (Z.leb (key y) (key x)); [reflexivity|].
  rewrite IH. apply perm_swap.
Qed.

Lemma sort_desc_perm {A} (key : A -> Z) (l : list A) : Permutation (sort_desc key l) l.
Proof.
  induction l as [|x l IH]; simpl; [reflexivity|].
  rewrite insert_desc_perm. apply perm_skip. exact IH.
Qed.

Lemma NoDup_firstn_map {A B} (f : A -> B) (n : nat) (l : list A) :
  NoDup (map f l) -> NoDup (map f (firstn n l)).
Proof.
  revert l. induction n as [|n IH]; intros l H; [constructor|].
  destruct l as [|x l]; [constructor|]. simpl in *.
  apply NoDup_cons_iff in H as [Hx H]. constructor; [|exact (IH l H)].
  intro Hin. apply Hx. apply in_map_iff in Hin as [y [Ey Hy]].
  rewrite <- Ey. apply in_map. exact (firstn_In_incl _ _ _ Hy).
Qed.

Lemma kcount_snoc (key : activity_row -> Z) (k : Z) (rows : list activity_row) (r : activity_row) :
  kcount key k (rows ++ [r])%list = (kcount key k rows + if Z.eqb (key r) k then 1 else 0)%nat.
Proof.
  unfold kcount. rewrite filter_app, length_app. simpl. destruct (Z.eqb (key r) k); reflexivity.
Qed.

Lemma bump_count_keys (key : activity_row -> Z) (r : activity_row) (acc : list (Z * Z)) :
  map fst (bump_count key r acc) =
  if existsb (Z.eqb (key r)) (map fst acc) then map fst acc else (map fst acc ++ [key r])%list.
Proof.
  induction acc as [|[k c] acc IH]; [reflexivity|].
  simpl. rewrite (Z.eqb_sym (key r) k).
  destruct (Z.eqb k (key r)); simpl; [reflexivity|].
  rewrite IH. destruct (existsb (Z.eqb (key r)) (map fst acc)); reflexivity.
Qed.

Lemma bump_count_entries (key : activity_row -> Z) (r : activity_row) (acc : list (Z * Z)) k c :
  NoDup (map fst acc) -> In (k, c) (bump_count key r acc) ->
  (k = key r /\ (In (k, c - 1) acc \/ (~ In k (map fst acc) /\ c = 1))) \/
  (k <> key r /\ In (k, c) acc).
Proof.
  induction acc as [|[k0 c0] acc IH]; simpl.
  - intros _ [E|[]]. injection E as <- <-. left. split; [reflexivity|right; tauto].
  - intros Hnd. apply NoDup_cons_iff in Hnd as [Hnin Hnd].
    destruct (Z.eqb_spec k0 (key r)) as [Heq|Hne].
    + intros [E|Hin].
      * injection E as <- <-. left. split; [exact Heq|]. left. left. f_equal. lia.
      * right. split; [|right; exact Hin].
        intro Hu. subst k. apply Hnin. rewrite Heq. apply (in_map fst) in Hin. exact Hin.
    + intros [E|Hin].
      * injection E as <- <-. right. split; [exact Hne|left; reflexivity].
      * destruct (IH Hnd Hin) as [[Hu [Hold|[Hnew Hc]]]|[Hu Hold]].
        -- left. split; [exact Hu|left; right; exact Hold].
        -- left. split; [exact Hu|right; split; [|exact Hc]].
           intros [E|E]; [congruence|contradiction].
        -- right. split; [exact Hu|right; exact Hold].
Qed.

Lemma count_inv_step (key : activity_row -> Z) (rows : list activity_row) (acc : list (Z * Z))
    (r : activity_row) :
  count_inv key rows acc -> count_inv key (rows ++ [r])%list (bump_count key r acc).
Proof.
  intros [Hnd [Hc Habs]].
  pose proof (bump_count_keys key r acc) as Hk.
  destruct (existsb (Z.eqb (key r)) (map fst acc)) eqn:He.
  - apply existsb_eqb_In in He.
    split; [|split].
    + rewrite Hk. exact Hnd.
    + intros k c Hin. rewrite kcount_snoc.
      destruct (bump_count_entries key r acc k c Hnd Hin) as [[Hu [Hold|[Hnew _]]]|[Hu Hold]].
      * subst k. rewrite Z.eqb_refl. pose proof (Hc _ _ Hold). lia.
      * subst k. contradiction.
      * rewrite (Hc _ _ Hold). destruct (Z.eqb_spec (key r) k); [congruence|lia].
    + intros k Hu. rewrite Hk in Hu. rewrite kcount_snoc, (Habs k Hu).
      destruct (Z.eqb_spec (key r) k); [subst; contradiction|reflexivity].
  - assert (Hnot : ~ In (key r) (map fst acc)).
    { intro H. apply existsb_eqb_In in H. congruence. }
    split; [|split].
    + rewrite Hk. apply NoDup_app; [exact Hnd|constructor; [intros []|constructor]|].
      intros a Ha [E|[]]. subst a. contradiction.
    + intros k c Hin. rewrite kcount_snoc.
      destruct (bump_count_entries key r acc k c Hnd Hin) as [[Hu [Hold|[Hnew Hc1]]]|[Hu Hold]].
      * subst k. exfalso. apply Hnot. apply (in_map fst) in Hold. exact Hold.
      * subst k. rewrite Z.eqb_refl, (Habs _ Hnew). lia.
      * rewrite (Hc _ _ Hold). destruct (Z.eqb_spec (key r) k); [congruence|lia].
    + intros k Hu. rewrite Hk in Hu.
      assert (Hu1 : ~ In k (map fst acc)) by (intro; apply Hu; apply in_or_app; left; assumption).
      rewrite kcount_snoc, (Habs k Hu1).
      destruct (Z.eqb_spec (key r) k); [|reflexivity].
      exfalso. apply Hu. apply in_or_app. right. left. assumption.
Qed.

Lemma group_count_inv (key : activity_row -> Z) (rows : list activity_row) :
  count_inv key rows (group_count key rows).
Proof.
  induction rows as [|r rows IH] using rev_ind.
  - split; [constructor|split].
    + intros k c [].
    + intros k _. reflexivity.
  - unfold group_count in *. rewrite fold_left_app. simpl. apply count_inv_step. exact IH.
Qed.

(** X8: [get_peak_hours] returns at most 5 buckets, each hour at most once,
    ordered by count descending, and each count is the number of events of
    the chat within the window at that hour. *)
Theorem peak_hours_spec (day_of : Z -> string) (now chat_id days : Z) (d : db) :
  let cutoff := cutoff_date day_of now days in
  let res := get_peak_hours day_of now chat_id days d in
  (List.length res <= 5)%nat /\ NoDup (map fst res) /\ Sorted (desc snd) res /\
  (forall h c, In (h, c) res ->
     c = Z.of_nat (List.length (filter (fun r => in_window chat_id cutoff r && Z.eqb (a_hour r) h)
                                       (activity d)))).
Proof.
  intros cutoff res.
  set (rows := filter (in_window chat_id cutoff) (activity d)).
  assert (Hres' : res = [] \/ res = firstn 5 (sort_desc snd (group_count a_hour rows)))
    by (unfold res, get_peak_hours; destruct (cutoff_instant now days); [right|left]; reflexivity).
  destruct Hres' as [H0|Hres].
  { rewrite H0. split; [simpl; lia|split; [constructor|split; [constructor|intros h c []]]]. }
  destruct (group_count_inv a_hour rows) as [Hnd [Hc _]].
  split; [|split; [|split]].
  - rewrite Hres. apply firstn_le_length.
  - rewrite Hres. apply NoDup_firstn_map.
    apply (Permutation_NoDup (Permutation_map fst (Permutation_sym (sort_desc_perm snd _)))).
    exact Hnd.
  - rewrite Hres. apply firstn_sorted, sort_desc_sorted.
  - intros h c Hin. rewrite Hres in Hin.
    apply firstn_In_incl, sort_desc_In in Hin.
    rewrite (Hc h c Hin). unfold kcount, rows. rewrite filter_filter_andb. reflexivity.
Qed.

Lemma peak_hours_spec_witness :
  In (12, 2) (get_peak_hours (fun _ => "2026-10-19") sample_now (-100) 7 two_user_db) /\
  2 = Z.of_nat (List.length
        (filter (fun r => in_window (-100) (cutoff_date (fun _ => "2026-10-19") sample_now 7) r
                          && Z.eqb (a_hour r) 12) (activity two_user_db))).
Proof.
  split; [vm_compute; left; reflexivity|].
  apply (proj2 (proj2 (proj2 (peak_hours_spec (fun _ => "2026-10-19") sample_now (-100) 7
                                 two_user_db)))).
  vm_compute. left. reflexivity.
Defined.

(** ** Group listings and counts *)

Lemma Sorted_map {A B} (R : B -> B -> Prop) (f : A -> B) (l : list A) :
  Sorted (fun x y => R (f x) (f y)) l -> Sorted R (map f l).
Proof.
  induction 1 as [|x l Hs IH Hh]; simpl; constructor; [exact IH|].
  destruct Hh; simpl; constructor. assumption.
Qed.

(** X9: [get_pending_groups] lists exactly the rows whose stored status is
    pending, as (chat_id, group_name, added_date), newest first. *)
Theorem pending_groups_spec (d : db) :
  (forall x, In x (get_pending_groups d) <->
     exists g, In g (groups d) /\ g_status g = "pending" /\
               x = (g_chat_id g, g_group_name g, g_added_date g)) /\
  Sorted (desc pending_added) (get_pending_groups d).
Proof.
  split.
  - intro x. unfold get_pending_groups. rewrite in_map_iff. split.
    + intros [g [Ex Hg]]. apply (Permutation_in _ (sort_desc_perm g_added_date _)) in Hg.
      apply filter_In in Hg as [Hg Hp]. unfold is_pending in Hp. apply String.eqb_eq in Hp.
      exists g. split; [exact Hg|split; [exact Hp|symmetry; exact Ex]].
    + intros [g [Hg [Hp Ex]]]. exists g. split; [symmetry; exact Ex|].
      apply (Permutation_in _ (Permutation_sym (sort_desc_perm g_added_date _))).
      apply filter_In. split; [exact Hg|]. unfold is_pending. rewrite Hp. reflexivity.
  - unfold get_pending_groups. apply Sorted_map. apply sort_desc_sorted.
Qed.

Lemma pending_groups_spec_witness :
  In (-100, Some "Felix", 0) (get_pending_groups sample_db).
Proof.
  apply (proj2 (proj1 (pending_groups_spec sample_db) (-100, Some "Felix", 0))).
  exists sample_group. split; [left; reflexivity|split; reflexivity].
Defined.

Lemma distinct_users_acc_In (rows : list activity_row) (seen : list Z) (u : Z) :
  In u (distinct_users_acc rows seen) <-> In u seen \/ exists r, In r rows /\ a_user_id r = u.
Proof.
  revert seen. induction rows as [|r rows IH]; intro seen; simpl.
  - split; [tauto|]. intros [H|[r [[] _]]]. exact H.
  - destruct (existsb (Z.eqb (a_user_id r)) seen) eqn:He; rewrite IH; split.
    + intros [H|[r' [Hr' E]]]; [left; exact H|right; exists r'; tauto].
    + intros [H|[r' [[<-|Hr'] E]]]; [left; exact H| |right; exists r'; tauto].
      left. subst u. apply existsb_eqb_In. exact He.
    + intros [H|[r' [Hr' E]]].
      * apply in_app_or in H as [H|[<-|[]]]; [left; exact H|right; exists r; tauto].
      * right. exists r'. tauto.
    + intros [H|[r' [[<-|Hr'] E]]].
      * left. apply in_or_app. left. exact H.
      * left. apply in_or_app. right. left. exact E.
      * right. exists r'. tauto.
Qed.

Lemma distinct_users_acc_NoDup (rows : list activity_row) (seen : list Z) :
  NoDup seen -> NoDup (distinct_users_acc rows seen).
Proof.
  revert seen. induction rows as [|r rows IH]; intros seen Hnd; simpl; [exact Hnd|].
  destruct (existsb (Z.eqb (a_user_id r)) seen) eqn:He; apply IH; [exact Hnd|].
  apply NoDup_app; [exact Hnd|constructor; [intros []|constructor]|].
  intros a Ha [E|[]]. subst a. assert (existsb (Z.eqb (a_user_id r)) seen = true)
    by (apply existsb_eqb_In; exact Ha). congruence.
Qed.

Lemma distinct_users_acc_length (rows : list activity_row) (seen : list Z) :
  (List.length (distinct_users_acc rows seen) <= List.length seen + List.length rows)%nat.
Proof.
  revert seen. induction rows as [|r rows IH]; intro seen; simpl; [lia|].
  destruct (existsb (Z.eqb (a_user_id r)) seen).
  - specialize (IH seen). lia.
  - specialize (IH (seen ++ [a_user_id r])%list). rewrite length_app in IH. simpl in IH. lia.
Qed.

Lemma count_distinct_le_length (rows : list activity_row) :
  count_distinct_users rows <= Z.of_nat (List.length rows).
Proof.
  unfold count_distinct_users. pose proof (distinct_users_acc_length rows []). simpl in H. lia.
Qed.

Lemma count_distinct_filter_le (f g : activity_row -> bool) (rows : list activity_row) :
  (forall r, g r = true -> f r = true) ->
  count_distinct_users (filter g rows) <= count_distinct_users (filter f rows).
Proof.
  intro Hgf. unfold count_distinct_users. apply inj_le.
  apply NoDup_incl_length; [apply distinct_users_acc_NoDup; constructor|].
  intros u Hu. apply distinct_users_acc_In in Hu as [[]|[r [Hr E]]].
  apply distinct_users_acc_In. right. exists r. split; [|exact E].
  apply filter_In in Hr as [Hr Hg]. apply filter_In. split; [exact Hr|apply Hgf; exact Hg].
Qed.

Lemma filter_length_le {A} (f g : A -> bool) (l : list A) :
  (forall x, g x = true -> f x = true) ->
  (List.length (filter g l) <= List.length (filter f l))%nat.
Proof.
  intro Hgf. induction l as [|x l IH]; simpl; [lia|].
  destruct (g x) eqn:Hg; [rewrite (Hgf x Hg); simpl; lia|].
  destruct (f x); simpl; lia.
Qed.

(** X10: [get_all_active_groups] lists exactly the rows whose stored status
    is trial or active, whatever their end dates (it applies no expiry),
    with the chat's message count and distinct-user count, the latter never
    above the former. *)
Theorem all_active_groups_spec (d : db) :
  forall ag, In ag (get_all_active_groups d) <->
    exists g, In g (groups d) /\ (g_status g = "trial" \/ g_status g = "active") /\
      ag = mk_active (g_chat_id g) (g_group_name g) (g_status g) (g_trial_end_date g)
             (g_subscription_end_date g)
             (count_distinct_users (filter (fun r => Z.eqb (a_chat_id r) (g_chat_id g)) (activity d)))
             (count_rows (fun r => Z.eqb (a_chat_id r) (g_chat_id g)) (activity d)) /\
      ag_unique_users ag <= ag_total_messages ag.
Proof.
  intro ag. unfold get_all_active_groups. rewrite in_map_iff. split.
  - intros [g [Ex Hg]]. apply (Permutation_in _ (sort_desc_perm g_added_date _)) in Hg.
    apply filter_In in Hg as [Hg Hp]. exists g. split; [exact Hg|split; [|split]].
    + unfold is_trial_or_active in Hp. apply orb_true_iff in Hp as [Hp|Hp];
        apply String.eqb_eq in Hp; [left|right]; exact Hp.
    + symmetry. exact Ex.
    + subst ag. simpl. apply count_distinct_le_length.
  - intros [g [Hg [Hp [Ex _]]]]. exists g. split; [symmetry; exact Ex|].
    apply (Permutation_in _ (Permutation_sym (sort_desc_perm g_added_date _))).
    apply filter_In. split; [exact Hg|]. unfold is_trial_or_active.
    destruct Hp as [Hp|Hp]; rewrite Hp; reflexivity.
Qed.

Lemma all_active_groups_spec_witness :
  In (mk_active (-100) (Some "Felix") "trial" (Some 100) None 0 0)
     (get_all_active_groups active_trial_db).
Proof.
  apply (proj2 (all_active_groups_spec active_trial_db
                  (mk_active (-100) (Some "Felix") "trial" (Some 100) None 0 0))).
  exists (mk_group (-100) (Some "Felix") "trial" (Some 100) None 0).
  split; [left; reflexivity|split; [left; reflexivity|split; [reflexivity|simpl; lia]]].
Defined.

(** X11: the counts of [get_overall_stats] are consistent: today's messages
    and the last week's messages are at most the total, today's active users
    at most today's messages and at most the distinct users, and the
    distinct users at most the total. *)
Theorem overall_stats_bounds (day_of : Z -> string) (now chat_id : Z) (d : db) (s : overall_stats) :
  get_overall_stats day_of now chat_id d = Some s ->
  messages_today s <= total_messages s /\ messages_week s <= total_messages s /\
  active_today s <= messages_today s /\ active_today s <= unique_users s /\
  unique_users s <= total_messages s.
Proof.
  unfold get_overall_stats. intro H.
  set (of_chat := fun r => Z.eqb (a_chat_id r) chat_id) in H.
  set (on_today := fun r => of_chat r && String.eqb (a_date r) (day_of now)) in H.
  assert (Hsub : forall r, on_today r = true -> of_chat r = true)
    by (intros r Hr; unfold on_today in Hr; apply andb_true_iff in Hr; tauto).
  assert (Hwk : forall r, in_window chat_id (cutoff_date day_of now 7) r = true -> of_chat r = true)
    by (intros r Hr; unfold in_window in Hr; apply andb_true_iff in Hr; tauto).
  destruct (if Z.ltb 0 _ then _ else _); [|discriminate].
  injection H as <-. simpl. unfold count_rows.
  change (fun r : activity_row => Z.eqb (a_chat_id r) chat_id && String.eqb (a_date r) (day_of now))
    with on_today.
  pose proof (filter_length_le _ _ (activity d) Hsub).
  pose proof (filter_length_le _ _ (activity d) Hwk).
  pose proof (count_distinct_le_length (filter on_today (activity d))).
  pose proof (count_distinct_filter_le _ _ (activity d) Hsub).
  pose proof (count_distinct_le_length (filter of_chat (activity d))).
  lia.
Qed.

Lemma overall_stats_bounds_witness :
  get_overall_stats (fun _ => "2026-10-19") sample_now (-100) two_user_db
    = Some (mk_stats 2 2 2 2 2 (PyFloat (Qmake 10 10))) /\
  messages_today (mk_stats 2 2 2 2 2 (PyFloat (Qmake 10 10)))
    <= total_messages (mk_stats 2 2 2 2 2 (PyFloat (Qmake 10 10))).
Proof.
  split; [reflexivity|].
  apply (overall_stats_bounds (fun _ => "2026-10-19") sample_now (-100) two_user_db); reflexivity.
Defined.

(** ** Export rows *)

Lemma bump_export_proj (r : activity_row) (acc1 : list export_row) (acc2 : list (Z * string * Z)) :
  map export_proj acc1 = map contributor_proj acc2 ->
  map export_proj (bump_export r acc1) = map contributor_proj (bump_contributor r acc2).
Proof.
  revert acc2. induction acc1 as [|e acc1 IH]; intros [|[[u n] c] acc2] H; try discriminate.
  - reflexivity.
  - cbn [map export_proj contributor_proj] in H. injection H as Hu Hc Hrest. simpl.
    rewrite Hu.
    destruct (Z.eqb u (a_user_id r)); simpl.
    + unfold export_proj at 1. simpl. rewrite Hc, Hrest. reflexivity.
    + rewrite (IH acc2 Hrest). cbn [map export_proj contributor_proj]. unfold export_proj. congruence.
Qed.

Lemma export_fold_proj (rows : list activity_row) (acc1 : list export_row) (acc2 : list (Z * string * Z)) :
  map export_proj acc1 = map contributor_proj acc2 ->
  map export_proj (fold_left (fun acc r => bump_export r acc) rows acc1)
  = map contributor_proj (fold_left (fun acc r => bump_contributor r acc) rows acc2).
Proof.
  revert acc1 acc2. induction rows as [|r rows IH]; intros acc1 acc2 H; simpl; [exact H|].
  apply IH. apply bump_export_proj. exact H.
Qed.

Lemma bump_export_dates (P : string -> Prop) (r : activity_row) (acc : list export_row) :
  P (a_date r) ->
  (forall e, In e acc -> P (e_first_activity e) /\ P (e_last_activity e)) ->
  forall e, In e (bump_export r acc) -> P (e_first_activity e) /\ P (e_last_activity e).
Proof.
  intros Hr. induction acc as [|e0 acc IH]; simpl; intros Hacc e He.
  - destruct He as [<-|[]]. simpl. tauto.
  - destruct (Z.eqb (e_user_id e0) (a_user_id r)).
    + destruct He as [<-|He]; [|apply Hacc; right; exact He].
      simpl. destruct (Hacc e0 (or_introl eq_refl)) as [H1 H2].
      unfold text_min, text_max.
      split; [destruct (text_le (e_first_activity e0) (a_date r))|
              destruct (text_le (e_last_activity e0) (a_date r))]; assumption.
    + destruct He as [<-|He]; [apply Hacc; left; reflexivity|].
      apply (IH (fun e' He' => Hacc e' (or_intror He')) e He).
Qed.

Lemma export_fold_dates (P : string -> Prop) (rows : list activity_row) (acc : list export_row) :
  (forall r, In r rows -> P (a_date r)) ->
  (forall e, In e acc -> P (e_first_activity e) /\ P (e_last_activity e)) ->
  forall e, In e (fold_left (fun acc r => bump_export r acc) rows acc) ->
    P (e_first_activity e) /\ P (e_last_activity e).
Proof.
  revert acc. induction rows as [|r rows IH]; intros acc Hrows Hacc; simpl; [exact Hacc|].
  apply IH; [intros r' Hr'; apply Hrows; right; exact Hr'|].
  apply bump_export_dates; [apply Hrows; left; reflexivity|exact Hacc].
Qed.

(** X12: the rows of the CSV export: one per user (no user twice), ordered by
    total descending; each total is the number of events of that user in the
    chat within the window, and the first and last activity dates are dates
    within the window. *)
Theorem export_rows_spec (day_of : Z -> string) (now chat_id days : Z) (d : db) :
  let cutoff := cutoff_date day_of now days in
  let res := export_query cutoff chat_id d in
  NoDup (map e_user_id res) /\ Sorted (desc e_total) res /\
  (forall e, In e res ->
     e_total e = user_events_in_window cutoff chat_id (e_user_id e) d /\
     text_le cutoff (e_first_activity e) = true /\ text_le cutoff (e_last_activity e) = true).
Proof.
  intros cutoff res.
  set (rows := filter (in_window chat_id cutoff) (activity d)).
  set (folded := fold_left (fun acc r => bump_export r acc) rows []).
  assert (Hres : res = sort_desc e_total folded) by reflexivity.
  assert (Hproj : map export_proj folded = map contributor_proj (group_by_user rows))
    by (apply export_fold_proj; reflexivity).
  destruct (group_by_user_inv rows) as [Hnd [Hc _]].
  assert (Hkeys : map e_user_id folded = map ckey (group_by_user rows)).
  { replace (map e_user_id folded) with (map fst (map export_proj folded))
      by (rewrite map_map; reflexivity).
    rewrite Hproj, map_map. apply map_ext. intros [[u n] c]. reflexivity. }
  split; [|split].
  - rewrite Hres.
    apply (Permutation_NoDup (Permutation_map e_user_id (Permutation_sym (sort_desc_perm e_total _)))).
    rewrite Hkeys. exact Hnd.
  - rewrite Hres. apply sort_desc_sorted.
  - intros e He. rewrite Hres in He. apply sort_desc_In in He.
    split; [|apply (export_fold_dates (fun s => text_le cutoff s = true) rows []);
             [|intros _ []|exact He]].
    + assert (Hp : In (export_proj e) (map contributor_proj (group_by_user rows)))
        by (rewrite <- Hproj; apply in_map; exact He).
      apply in_map_iff in Hp as [[[u n] c] [Ep Hin]].
      unfold export_proj in Ep. simpl in Ep. injection Ep as Eu Ec.
      rewrite <- Eu, <- Ec, (Hc u n c Hin).
      unfold ucount, user_events_in_window, rows. rewrite filter_filter_andb. reflexivity.
    + intros r Hr. apply filter_In in Hr as [_ Hr]. unfold in_window in Hr.
      apply andb_true_iff in Hr. tauto.
Qed.

Lemma export_rows_spec_witness :
  let res := export_query (cutoff_date (fun _ => "2026-10-19") sample_now 30) (-100) two_user_db in
  List.length res = 2%nat /\
  forall e, In e res ->
    e_total e = user_events_in_window (cutoff_date (fun _ => "2026-10-19") sample_now 30) (-100)
                  (e_user_id e) two_user_db.
Proof.
  split; [vm_compute; reflexivity|].
  intros e He.
  exact (proj1 (proj2 (proj2 (export_rows_spec (fun _ => "2026-10-19") sample_now (-100) 30 two_user_db)) e He)).
Defined.

(** ** Command handlers *)

Lemma decimal_value_in_nonneg (zeros : list Z) (cp v : Z) :
  decimal_value_in zeros cp = Some v -> 0 <= v.
Proof.
  induction zeros as [|z zs IH]; cbn [decimal_value_in]; [discriminate|].
  destruct (Z.leb_spec z cp); destruct (Z.leb_spec cp (z + 9)); cbn [andb];
    try exact IH; intro E; injection E as <-; lia.
Qed.

Lemma py_int_acc_nonneg (cps : list Z) (acc v : Z) :
  0 <= acc -> py_int_acc cps acc = Some v -> 0 <= v.
Proof.
  revert acc. induction cps as [|cp cps IH]; intros acc H; cbn [py_int_acc].
  - intro E. injection E as <-. exact H.
  - unfold decimal_value. destruct (decimal_value_in decimal_zeros cp) as [w|] eqn:Hw;
      [|discriminate].
    apply decimal_value_in_nonneg in Hw. apply IH. lia.
Qed.

Lemma py_int_nonneg (s : string) (v : Z) : py_int s = Some v -> 0 <= v.
Proof.
  unfold py_int. destruct (utf8_decode s) as [cps|]; [|discriminate].
  destruct (Nat.ltb int_max_str_digits (List.length cps)); [discriminate|].
  apply py_int_acc_nonneg. lia.
Qed.

Lemma leaderboard_days_range (args : list string) (days : Z) :
  leaderboard_days args = Some days -> 0 <= days <= 30.
Proof.
  unfold leaderboard_days. destruct args as [|s rest]; [intro H; injection H as <-; lia|].
  destruct (isdigit s); [|intro H; injection H as <-; lia].
  destruct (py_int s) as [v|] eqn:Hv; cbn [option_map]; [|discriminate].
  apply py_int_nonneg in Hv. intro H; injection H as <-; lia.
Qed.

Lemma export_days_range (args : list string) (days : Z) :
  export_days args = Some days -> 0 <= days <= 90.
Proof.
  unfold export_days. destruct args as [|s rest]; [intro H; injection H as <-; lia|].
  destruct (isdigit s); [|intro H; injection H as <-; lia].
  destruct (py_int s) as [v|] eqn:Hv; cbn [option_map]; [|discriminate].
  apply py_int_nonneg in Hv. intro H; injection H as <-; lia.
Qed.

Lemma user_events_activity (cutoff : string) (chat_id u : Z) (d d' : db) :
  activity d' = activity d ->
  user_events_in_window cutoff chat_id u d' = user_events_in_window cutoff chat_id u d.
Proof. intro H. unfold user_events_in_window. rewrite H. reflexivity. Qed.

Lemma export_to_csv_activity (day_of : Z -> string) (now chat_id days : Z) (d d' : db) :
  activity d' = activity d ->
  export_to_csv day_of now chat_id days d' = export_to_csv day_of now chat_id days d.
Proof. intro H. unfold export_to_csv, export_query. rewrite H. reflexivity. Qed.

Lemma get_overall_stats_some (day_of : Z -> string) (now chat_id : Z) (d : db) :
  exists s, get_overall_stats day_of now chat_id d = Some s.
Proof.
  unfold get_overall_stats, py_true_div.
  set (u := count_distinct_users (filter (fun r => Z.eqb (a_chat_id r) chat_id) (activity d))).
  destruct (Z.ltb_spec 0 u); [|eexists; reflexivity].
  destruct (Z.eqb_spec u 0); [lia|]. destruct (Z.eqb _ 0); eexists; reflexivity.
Qed.

(** X13: [/start] in a group answers with the authorization notice exactly
    when the evaluated status is pending and with the expiry notice exactly
    when it is expired; its only write is the one of [get_group_status]; a
    group with no row and a private chat get the welcome text and nothing
    is written. *)
Theorem start_command_spec (now : Z) (c : chat) (d : db) :
  (is_group_chat c = false -> start_command now c d = (Welcome, d)) /\
  (is_group_chat c = true ->
     snd (start_command now c d) = snd (get_group_status now (c_id c) d) /\
     (fst (start_command now c d) = NeedsAuthorization <->
        fst (get_group_status now (c_id c) d) = Some "pending") /\
     (fst (start_command now c d) = ExpiredNotice <->
        fst (get_group_status now (c_id c) d) = Some "expired") /\
     (select_group (c_id c) (groups d) = None -> start_command now c d = (Welcome, d))).
Proof.
  unfold start_command. split; intro Hg; rewrite Hg; [reflexivity|].
  split; [|split; [|split]].
  - destruct (get_group_status now (c_id c) d) as [[st|] d1]; simpl; [|reflexivity].
    destruct (String.eqb st "pending"); [|destruct (String.eqb st "expired")]; reflexivity.
  - destruct (get_group_status now (c_id c) d) as [[st|] d1]; simpl;
      [|split; discriminate].
    destruct (String.eqb_spec st "pending") as [->|Hp]; [split; reflexivity|].
    destruct (String.eqb st "expired"); simpl;
      split; intro H; try discriminate; injection H as H; contradiction.
  - destruct (get_group_status now (c_id c) d) as [[st|] d1]; simpl;
      [|split; discriminate].
    destruct (String.eqb_spec st "pending") as [->|Hp];
      [split; intro H; [discriminate|injection H as H; discriminate]|].
    destruct (String.eqb_spec st "expired") as [->|He]; simpl; [split; reflexivity|].
    split; intro H; [discriminate|injection H as H; contradiction].
  - intro Hs. unfold get_group_status. rewrite Hs. reflexivity.
Qed.

Lemma start_command_spec_witness :
  is_group_chat sample_chat = true /\
  fst (start_command 0 sample_chat sample_db) = NeedsAuthorization.
Proof.
  split; [reflexivity|].
  apply (proj2 (proj1 (proj2 (proj2 (start_command_spec 0 sample_chat sample_db) eq_refl)))).
  reflexivity.
Defined.

(** X14: [/leaderboard] shows a board only in a group whose evaluated status
    is trial or active; the board is never empty, has at most 10 entries in
    descending order of count over a window of 0 to 30 days, and each count
    is the number of the user's events in the chat within that window.  Its
    only write is the one of [get_group_status]. *)
Theorem leaderboard_command_spec (day_of : Z -> string) (now : Z) (c : chat)
    (args : list string) (d : db) :
  snd (leaderboard_command day_of now c args d)
    = (if is_group_chat c then snd (get_group_status now (c_id c) d) else d) /\
  (forall days entries,
     fst (leaderboard_command day_of now c args d) = LbBoard days entries ->
     is_group_chat c = true /\ status_permits (fst (get_group_status now (c_id c) d)) = true /\
     leaderboard_days args = Some days /\ 0 <= days <= 30 /\
     entries <> [] /\ (List.length entries <= 10)%nat /\
     Sorted (desc contributor_count) entries /\
     (forall u n k, In (u, n, k) entries ->
        k = user_events_in_window (cutoff_date day_of now days) (c_id c) u d)).
Proof.
  unfold leaderboard_command.
  destruct (is_group_chat c) eqn:Hg; simpl; [|split; [reflexivity|intros ? ? H; discriminate]].
  pose proof (get_group_status_activity now (c_id c) d) as Hact.
  destruct (get_group_status now (c_id c) d) as [st d1]. simpl in Hact |- *.
  destruct (status_permits st) eqn:Hp; simpl; [|split; [reflexivity|intros ? ? H; discriminate]].
  destruct (leaderboard_days args) as [days0|] eqn:Hdays; cbn [fst snd];
    [|split; [reflexivity|intros ? ? H; discriminate]].
  destruct (top_contributors_at_props (cutoff_date day_of now days0)
              (c_id c) 10 d1 ltac:(lia)) as [Hlen [Hsort Hcnt]].
  unfold get_top_contributors.
  destruct (cutoff_instant now days0); [|split; [reflexivity|intros ? ? H; discriminate]].
  destruct (get_top_contributors_at (cutoff_date day_of now days0) (c_id c) 10 d1)
    as [|e es] eqn:Ht; simpl; [split; [reflexivity|intros ? ? H; discriminate]|].
  split; [reflexivity|]. intros days entries H. injection H as <- <-.
  split; [reflexivity|split; [reflexivity|split; [reflexivity|split; [exact (leaderboard_days_range args days0 Hdays)|]]]].
  split; [discriminate|split; [simpl in Hlen |- *; lia|split; [exact Hsort|]]].
  intros u n k Hin. rewrite (Hcnt u n k Hin). apply user_events_activity. exact Hact.
Qed.

Lemma leaderboard_command_spec_witness :
  fst (leaderboard_command (fun _ => "2026-10-19") sample_now sample_chat ["365"] live_trial_db)
    = LbBoard 30 (get_top_contributors (fun _ => "2026-10-19") sample_now (-100) 30 10 live_trial_db) /\
  0 <= 30 <= 30.
Proof.
  split; [vm_compute; reflexivity|].
  exact (proj1 (proj2 (proj2 (proj2
           (proj2 (leaderboard_command_spec (fun _ => "2026-10-19") sample_now sample_chat ["365"]
                     live_trial_db)
              30 (get_top_contributors (fun _ => "2026-10-19") sample_now (-100) 30 10 live_trial_db)
              ltac:(vm_compute; reflexivity)))))).
Defined.

(** X15: [/export_data] sends a document only to an admin of the group (a
    row of [group_admins] or the super admin) whose evaluated status is
    trial or active, for an argument that [int] converts; the document is
    the [export_to_csv] text of a window of 0 to 90 days and begins with the
    header row.  A non-admin is refused before the status is evaluated, so
    nothing is written; the "Failed to export data." reply comes only from a
    window that starts before year 1 (the caught [OverflowError]); and any
    other converted window gets the document. *)
Theorem export_data_command_spec (day_of : Z -> string) (now super_admin_id : Z)
    (admins : list admin_row) (c : chat) (u : user) (args : list string) (d : db) :
  (is_group_chat c = true -> is_group_admin super_admin_id (c_id c) (u_id u) admins = false ->
     export_data_command day_of now super_admin_id admins c u args d = (ExNotAdmin, d)) /\
  (fst (export_data_command day_of now super_admin_id admins c u args d) = ExFailed ->
     exists days, export_days args = Some days /\ cutoff_instant now days = None) /\
  (forall days csv_data,
     fst (export_data_command day_of now super_admin_id admins c u args d) = ExDocument days csv_data ->
     is_group_chat c = true /\ is_group_admin super_admin_id (c_id c) (u_id u) admins = true /\
     status_permits (fst (get_group_status now (c_id c) d)) = true /\
     export_days args = Some days /\ 0 <= days <= 90 /\
     export_to_csv day_of now (c_id c) days d = Some csv_data /\
     parse_header csv_data = csv_header) /\
  (forall days,
     is_group_chat c = true -> is_group_admin super_admin_id (c_id c) (u_id u) admins = true ->
     status_permits (fst (get_group_status now (c_id c) d)) = true ->
     export_days args = Some days -> cutoff_instant now days <> None ->
     exists csv_data,
       fst (export_data_command day_of now super_admin_id admins c u args d)
         = ExDocument days csv_data).
Proof.
  unfold export_data_command.
  destruct (is_group_chat c) eqn:Hg; cbn [negb fst snd];
    [|split; [discriminate|split; [intro H; discriminate
                                  |split; [intros ? ? H; discriminate|intros ? H; discriminate]]]].
  destruct (is_group_admin super_admin_id (c_id c) (u_id u) admins) eqn:Ha; cbn [negb fst snd];
    [|split; [reflexivity|split; [intro H; discriminate
                                 |split; [intros ? ? H; discriminate|intros ? _ H; discriminate]]]].
  pose proof (get_group_status_activity now (c_id c) d) as Hact.
  destruct (get_group_status now (c_id c) d) as [st d1]. cbn [fst snd] in Hact |- *.
  destruct (status_permits st) eqn:Hp; cbn [negb fst snd];
    [|split; [discriminate|split; [intro H; discriminate
                                  |split; [intros ? ? H; discriminate|intros ? _ _ H; discriminate]]]].
  destruct (export_days args) as [days0|] eqn:Hdays;
    [|split; [discriminate|split; [intro H; discriminate
                                  |split; [intros ? ? H; discriminate
                                          |intros ? _ _ _ H; discriminate]]]].
  destruct (cutoff_instant now days0) eqn:Hci.
  - assert (Hcsv : exists rest, export_to_csv day_of now (c_id c) days0 d1
                                  = Some (csv_row csv_header ++ rest))
      by (unfold export_to_csv; rewrite Hci; eexists; reflexivity).
    destruct Hcsv as [rest Hcsv]. rewrite Hcsv.
    assert (Hne : String.eqb (csv_row csv_header ++ rest) EmptyString = false) by reflexivity.
    rewrite Hne. cbn [fst].
    split; [discriminate|split; [intro H; discriminate|split]].
    + intros days csv_data H. injection H as <- <-.
      split; [reflexivity|split; [reflexivity|split; [reflexivity|split; [reflexivity|]]]].
      split; [exact (export_days_range args days0 Hdays)|split; [|apply parse_header_prefix]].
      rewrite <- (export_to_csv_activity day_of now (c_id c) days0 d d1 Hact).
      rewrite Hcsv. reflexivity.
    + intros days _ _ _ E _. injection E as <-. eexists. reflexivity.
  - assert (Hn : export_to_csv day_of now (c_id c) days0 d1 = None)
      by (unfold export_to_csv; rewrite Hci; reflexivity).
    rewrite Hn. cbn [fst].
    split; [discriminate|split; [intros _; exists days0; split; [reflexivity|exact Hci]|split]].
    + intros ? ? H. discriminate.
    + intros days _ _ _ E Hne. injection E as <-. contradiction.
Qed.

Lemma export_data_command_spec_witness :
  is_group_chat sample_chat = true /\ is_group_admin 7 (-100) 7 [] = true /\
  status_permits (fst (get_group_status sample_now (-100) live_trial_db)) = true /\
  export_days ["365"] = Some 90 /\ cutoff_instant sample_now 90 <> None /\
  exists csv_data,
    fst (export_data_command (fun _ => "2026-10-19") sample_now 7 [] sample_chat sample_user ["365"]
           live_trial_db)
      = ExDocument 90 csv_data.
Proof.
  split; [reflexivity|]. split; [reflexivity|]. split; [vm_compute; reflexivity|].
  split; [reflexivity|]. split; [intro H; vm_compute in H; discriminate|].
  apply (proj2 (proj2 (proj2 (export_data_command_spec (fun _ => "2026-10-19") sample_now 7 []
           sample_chat sample_user ["365"] live_trial_db))) 90);
    [reflexivity|reflexivity|vm_compute; reflexivity|reflexivity
    |intro H; vm_compute in H; discriminate].
Defined.

Lemma get_peak_hours_activity (day_of : Z -> string) (now chat_id days : Z) (d d' : db) :
  activity d' = activity d ->
  get_peak_hours day_of now chat_id days d' = get_peak_hours day_of now chat_id days d.
Proof. intro H. unfold get_peak_hours, get_peak_hours_at. rewrite H. reflexivity. Qed.

Lemma get_overall_stats_activity (day_of : Z -> string) (now chat_id : Z) (d d' : db) :
  activity d' = activity d ->
  get_overall_stats day_of now chat_id d' = get_overall_stats day_of now chat_id d.
Proof. intro H. unfold get_overall_stats. rewrite H. reflexivity. Qed.

(** X16: [/peak_times] lists hours only in a group whose evaluated status is
    trial or active: at most 5 of them, never none, and exactly the
    [get_peak_hours] result over 7 days, whatever the arguments.
    [/community_stats] shows statistics only in such a group, and, storage
    faults aside, its "Unable to retrieve statistics." branch is never
    taken.  The only write
    of either command is the one of [get_group_status]. *)
Theorem stats_commands_spec (day_of : Z -> string) (now : Z) (c : chat)
    (args : list string) (d : db) :
  snd (peak_times_command day_of now c args d)
    = (if is_group_chat c then snd (get_group_status now (c_id c) d) else d) /\
  (forall hours, fst (peak_times_command day_of now c args d) = PkHours hours ->
     is_group_chat c = true /\ status_permits (fst (get_group_status now (c_id c) d)) = true /\
     hours <> [] /\ (List.length hours <= 5)%nat /\
     hours = get_peak_hours day_of now (c_id c) 7 d) /\
  snd (community_stats_command day_of now c d)
    = (if is_group_chat c then snd (get_group_status now (c_id c) d) else d) /\
  fst (community_stats_command day_of now c d) <> CsFailed /\
  (forall stats, fst (community_stats_command day_of now c d) = CsStats stats ->
     is_group_chat c = true /\ status_permits (fst (get_group_status now (c_id c) d)) = true /\
     get_overall_stats day_of now (c_id c) d = Some stats).
Proof.
  unfold peak_times_command, community_stats_command.
  destruct (is_group_chat c) eqn:Hg; cbn [negb fst snd];
    [|split; [reflexivity|split; [intros ? H; discriminate|
        split; [reflexivity|split; [discriminate|intros ? H; discriminate]]]]].
  pose proof (get_group_status_activity now (c_id c) d) as Hact.
  destruct (get_group_status now (c_id c) d) as [st d1]. cbn [fst snd] in Hact |- *.
  destruct (status_permits st) eqn:Hp; cbn [negb fst snd];
    [|split; [reflexivity|split; [intros ? H; discriminate|
        split; [reflexivity|split; [discriminate|intros ? H; discriminate]]]]].
  rewrite (get_peak_hours_activity day_of now (c_id c) (peak_times_days args) d d1 Hact).
  rewrite (get_overall_stats_activity day_of now (c_id c) d d1 Hact).
  destruct (get_overall_stats_some day_of now (c_id c) d) as [s Hs]. rewrite Hs.
  assert (Hlen : (List.length (get_peak_hours day_of now (c_id c) (peak_times_days args) d) <= 5)%nat).
  { unfold get_peak_hours. destruct (cutoff_instant now (peak_times_days args)); [|simpl; lia].
    unfold get_peak_hours_at, sql_limit. cbn [Z.ltb Z.compare Z.to_nat].
    apply (firstn_le_length 5). }
  unfold peak_times_days in *.
  destruct (get_peak_hours day_of now (c_id c) 7 d) as [|h hs] eqn:Hph; cbn [fst snd].
  - split; [reflexivity|split; [intros ? H; discriminate|]].
    split; [reflexivity|split; [discriminate|]].
    intros stats H. injection H as <-. auto.
  - split; [reflexivity|split].
    + intros hours H. injection H as <-.
      split; [reflexivity|split; [reflexivity|split; [discriminate|split; [exact Hlen|reflexivity]]]].
    + split; [reflexivity|split; [discriminate|]].
      intros stats H. injection H as <-. auto.
Qed.

Lemma stats_commands_spec_witness :
  fst (community_stats_command (fun _ => "2026-10-19") sample_now sample_chat live_trial_db)
    <> CsFailed /\
  (List.length (get_peak_hours (fun _ => "2026-10-19") sample_now (-100) 7 live_trial_db) <= 5)%nat.
Proof.
  destruct (stats_commands_spec (fun _ => "2026-10-19") sample_now sample_chat [] live_trial_db)
    as [_ [Hpk [_ [Hcs Hst]]]].
  split; [exact Hcs|].
  apply (Hpk (get_peak_hours (fun _ => "2026-10-19") sample_now (-100) 7 live_trial_db)).
  vm_compute. reflexivity.
Defined.

(** ** Super-admin commands *)

(** X17: the lifecycle commands [/approve_trial], [/extend_subscription],
    [/revoke_access] and [/add_group_admin] do nothing for any user but the
    super admin; for the super admin, a usage or invalid-argument reply
    writes nothing; and none of them touches the activity table.  This holds
    whatever the syntax [int()] accepts. *)
Theorem super_admin_commands_gated (parse_int : string -> option Z) (now super_admin_id : Z)
    (u : user) (args : list string) (d : db) (admins : list admin_row) :
  let r1 := approve_trial_command parse_int now super_admin_id u args d in
  let r2 := extend_subscription_command parse_int now super_admin_id u args d in
  let r3 := revoke_access_command parse_int super_admin_id u args d in
  let r4 := add_group_admin_command parse_int now super_admin_id u args admins in
  (is_super_admin super_admin_id (u_id u) = false ->
     r1 = (AdmSilent, d) /\ r2 = (AdmSilent, d) /\ r3 = (AdmSilent, d) /\ r4 = (AdmSilent, admins)) /\
  ((forall ok, fst r1 <> AdmResult ok) -> snd r1 = d) /\
  ((forall ok, fst r2 <> AdmResult ok) -> snd r2 = d) /\
  ((forall ok, fst r3 <> AdmResult ok) -> snd r3 = d) /\
  ((forall ok, fst r4 <> AdmResult ok) -> snd r4 = admins) /\
  activity (snd r1) = activity d /\ activity (snd r2) = activity d /\
  activity (snd r3) = activity d.
Proof.
  intros r1 r2 r3 r4.
  unfold r1, r2, r3, r4, approve_trial_command, extend_subscription_command,
    revoke_access_command, add_group_admin_command, optional_int_arg,
    approve_group_trial, extend_subscription.
  split; [intro H; rewrite H; split; [|split; [|split]]; reflexivity|].
  split; [admin_command_cases; intro H; try reflexivity; exfalso; eapply H; reflexivity|].
  split; [admin_command_cases; intro H; try reflexivity; exfalso; eapply H; reflexivity|].
  split; [admin_command_cases; intro H; try reflexivity; exfalso; eapply H; reflexivity|].
  split; [unfold add_group_admin; admin_command_cases;
          intro H; try reflexivity; exfalso; eapply H; reflexivity|].
  split; [|split]; admin_command_cases; reflexivity.
Qed.

Lemma super_admin_commands_gated_witness :
  approve_trial_command (fun _ => None) 0 1 (mk_user 2 None None) ["-100"] sample_db
    = (AdmSilent, sample_db) /\
  snd (revoke_access_command (fun _ => None) 1 (mk_user 1 None None) ["x"] sample_db) = sample_db.
Proof.
  destruct (super_admin_commands_gated (fun _ => None) 0 1 (mk_user 2 None None) ["-100"]
              sample_db []) as [Hgate _].
  split; [apply (proj1 (Hgate eq_refl))|].
  apply (proj1 (proj2 (proj2 (proj2 (super_admin_commands_gated (fun _ => None) 0 1
           (mk_user 1 None None) ["x"] sample_db []))))).
  intros ok H. discriminate.
Defined.
